(** * EmployeeManager: leave balances and task tracking

    A shallow embedding of [2_mcp_leave_management/main.py].  The two
    module-level dictionaries [employee_leaves] and [employee_tasks] are the
    mutable state of the server; every tool is a computation over that state
    returning a Python [str].  Dictionaries are kept as insertion-ordered
    association lists because [visualize_leave_summary] iterates over
    [employee_leaves.items()]. *)

From stdpp Require Import base decidable option list strings pretty.
From Stdlib Require Import ZArith Lia Ascii.

Local Open Scope Z_scope.

(** ** Python strings *)

Module Py.

(** [str(n)] and the [{n}] of an f-string, for an [int]. *)
Definition str_of_int (n : Z) : string := pretty n.

(** [sep.join(l)]. *)
Fixpoint join (sep : string) (l : list string) : string :=
  match l with
  | [] => ""
  | [x] => x
  | x :: l' => x +:+ sep +:+ join sep l'
  end.

Fixpoint repeat_nat (s : string) (n : nat) : string :=
  match n with
  | O => ""
  | S n' => s +:+ repeat_nat s n'
  end.

(** [s * n]: a count that is zero or negative gives the empty string. *)
Definition mul (s : string) (n : Z) : string := repeat_nat s (Z.to_nat n).

(** Rocq strings are byte strings; a Python [str] literal of the source is
    held as its UTF-8 encoding.  [len] of a Python [str] counts code
    points, that is, the bytes that are not continuation bytes
    (0x80..0xBF). *)
Definition is_continuation (c : ascii) : bool :=
  let n := N_of_ascii c in ((128 <=? n) && (n <? 192))%N.

Fixpoint len (s : string) : nat :=
  match s with
  | EmptyString => O
  | String c s' => ((if is_continuation c then 0 else 1) + len s')%nat
  end.

(** ["\n"] *)
Definition nl : string := String "010"%char EmptyString.

(** [x in l] for a list of strings: a left-to-right scan with [==]. *)
Fixpoint contains (x : string) (l : list string) : bool :=
  match l with
  | [] => false
  | y :: l' => if decide (y = x) then true else contains x l'
  end.

End Py.

(** ** Dictionaries keyed by strings, in insertion order *)

Definition dict (V : Type) : Type := list (string * V).

Section Dict.
Context {V : Type}.

(** [d.get(k)] *)
Fixpoint dict_get (k : string) (d : dict V) : option V :=
  match d with
  | [] => None
  | (k', v) :: d' => if decide (k' = k) then Some v else dict_get k d'
  end.

(** [k in d] *)
Definition dict_mem (k : string) (d : dict V) : bool :=
  match dict_get k d with Some _ => true | None => false end.

(** The object stored under [k] is mutated in place by [f]; the key keeps
    its position and no key is added. *)
Fixpoint dict_alter (f : V → V) (k : string) (d : dict V) : dict V :=
  match d with
  | [] => []
  | (k', v) :: d' =>
      if decide (k' = k) then (k', f v) :: d' else (k', v) :: dict_alter f k d'
  end.

(** [d.keys()] *)
Definition dict_keys (d : dict V) : list string := d.*1.

(** [d.values()] *)
Definition dict_values (d : dict V) : list V := d.*2.

End Dict.

(** ** The two stores *)

(** A value of [employee_leaves]: [{"balance": int, "history": [str]}]. *)
Record LeaveRecord : Type := mkLeave {
  balance : Z;
  history : list string;
}.

(** A value of [employee_tasks]: [{"tasks": [str], "completed": [str]}]. *)
Record TaskRecord : Type := mkTasks {
  tasks : list string;
  completed : list string;
}.

Record State : Type := mkState {
  employee_leaves : dict LeaveRecord;
  employee_tasks : dict TaskRecord;
}.

Definition initial_leaves : dict LeaveRecord :=
  [ ("E001", mkLeave 18 ["2024-12-25"; "2025-01-01"]);
    ("E002", mkLeave 20 []) ].

Definition initial_tasks : dict TaskRecord :=
  [ ("E001", mkTasks ["Prepare report"; "Attend meeting"] ["Prepare report"]);
    ("E002", mkTasks ["Update website"; "Backup database"] []) ].

Definition initial_state : State := mkState initial_leaves initial_tasks.

(** ** Computations over the stores

    A tool either returns a value or raises; in both cases the mutations
    done so far stay (the stores are module globals). *)

Inductive exn : Type :=
| KeyError (key : string).

Inductive outcome (A : Type) : Type :=
| Returned (a : A)
| Raised (e : exn).
Arguments Returned {A} a.
Arguments Raised {A} e.

Definition M (A : Type) : Type := State → outcome A * State.

Definition ret {A} (a : A) : M A := λ st, (Returned a, st).

Definition raise {A} (e : exn) : M A := λ st, (Raised e, st).

Definition bind {A B} (m : M A) (k : A → M B) : M B := λ st,
  match m st with
  | (Returned a, st') => k a st'
  | (Raised e, st') => (Raised e, st')
  end.

Declare Scope py_scope.
Delimit Scope py_scope with py.
Notation "'do' x <- m ; k" := (bind m (λ x, k))
  (at level 10, x name, m at level 100, k at level 200) : py_scope.
Notation "'exec' m ; k" := (bind m (λ _, k))
  (at level 10, m at level 100, k at level 200) : py_scope.
Local Open Scope py_scope.

(** [k in employee_leaves] *)
Definition leaves_mem (k : string) : M bool := λ st,
  (Returned (dict_mem k (employee_leaves st)), st).

(** [employee_leaves.get(k)] *)
Definition leaves_get (k : string) : M (option LeaveRecord) := λ st,
  (Returned (dict_get k (employee_leaves st)), st).

(** [employee_leaves[k]] *)
Definition leaves_item (k : string) : M LeaveRecord := λ st,
  match dict_get k (employee_leaves st) with
  | Some r => (Returned r, st)
  | None => raise (KeyError k) st
  end.

(** [employee_leaves.items()] *)
Definition leaves_items : M (list (string * LeaveRecord)) := λ st,
  (Returned (employee_leaves st), st).

(** A mutation of the record [employee_leaves[k]]. *)
Definition leaves_mutate (k : string) (f : LeaveRecord → LeaveRecord) : M unit := λ st,
  match dict_get k (employee_leaves st) with
  | Some _ =>
      (Returned tt, mkState (dict_alter f k (employee_leaves st)) (employee_tasks st))
  | None => raise (KeyError k) st
  end.

(** [k in employee_tasks] *)
Definition tasks_mem (k : string) : M bool := λ st,
  (Returned (dict_mem k (employee_tasks st)), st).

(** [employee_tasks[k]] *)
Definition tasks_item (k : string) : M TaskRecord := λ st,
  match dict_get k (employee_tasks st) with
  | Some r => (Returned r, st)
  | None => raise (KeyError k) st
  end.

(** A mutation of the record [employee_tasks[k]]. *)
Definition tasks_mutate (k : string) (f : TaskRecord → TaskRecord) : M unit := λ st,
  match dict_get k (employee_tasks st) with
  | Some _ =>
      (Returned tt, mkState (employee_leaves st) (dict_alter f k (employee_tasks st)))
  | None => raise (KeyError k) st
  end.

(** ** Leave management tools *)

Definition not_found_msg : string := "Employee ID not found.".

Definition get_leave_balance (employee_id : string) : M string :=
  do data <- leaves_get employee_id;
  match data with
  | Some data =>
      ret (employee_id +:+ " has " +:+ Py.str_of_int (balance data)
             +:+ " leave days remaining.")
  | None => ret not_found_msg
  end.

Definition insufficient_msg (requested_days available_balance : Z) : string :=
  "Insufficient leave balance. You requested " +:+ Py.str_of_int requested_days
    +:+ " day(s) but have only " +:+ Py.str_of_int available_balance +:+ ".".

Definition applied_msg (requested_days remaining : Z) : string :=
  "Leave applied for " +:+ Py.str_of_int requested_days
    +:+ " day(s). Remaining balance: " +:+ Py.str_of_int remaining +:+ ".".

Definition apply_leave (employee_id : string) (leave_dates : list string) : M string :=
  do known <- leaves_mem employee_id;
  if negb known then ret not_found_msg else
  let requested_days := Z.of_nat (length leave_dates) in
  do data <- leaves_item employee_id;
  let available_balance := balance data in
  if (available_balance <? requested_days)%Z then
    ret (insufficient_msg requested_days available_balance)
  else
    exec leaves_mutate employee_id
      (λ r, mkLeave (balance r - requested_days) (history r));
    exec leaves_mutate employee_id
      (λ r, mkLeave (balance r) (history r ++ leave_dates));
    do data' <- leaves_item employee_id;
    ret (applied_msg requested_days (balance data')).

Definition get_leave_history (employee_id : string) : M string :=
  do data <- leaves_get employee_id;
  match data with
  | Some data =>
      let history :=
        match history data with
        | [] => "No leaves taken."
        | _ :: _ => Py.join ", " (history data)
        end in
      ret ("Leave history for " +:+ employee_id +:+ ": " +:+ history)
  | None => ret not_found_msg
  end.

Definition filled_glyph : string := "🟩".
Definition empty_glyph : string := "⬜".

Definition summary_header : string := "🗂️ Leave Balances Summary:" +:+ Py.nl.

(** The [bar] of one iteration of the loop of [visualize_leave_summary]. *)
Definition summary_bar (data : LeaveRecord) : string :=
  Py.mul filled_glyph (balance data) +:+ Py.mul empty_glyph (20 - balance data).

Definition summary_line (emp_id : string) (data : LeaveRecord) : string :=
  emp_id +:+ ": " +:+ summary_bar data
    +:+ " (" +:+ Py.str_of_int (balance data) +:+ " days left)".

(** The [for] loop: one [append] to [summary_lines] per item. *)
Fixpoint summary_loop (items : list (string * LeaveRecord))
    (summary_lines : list string) : list string :=
  match items with
  | [] => summary_lines
  | (emp_id, data) :: items' =>
      summary_loop items' (summary_lines ++ [summary_line emp_id data])
  end.

Definition visualize_leave_summary : M string :=
  do items <- leaves_items;
  ret (Py.join Py.nl (summary_loop items [summary_header])).

(** ** Work tracking tools *)

Definition assigned_msg (task employee_id : string) : string :=
  "Task '" +:+ task +:+ "' assigned to " +:+ employee_id +:+ ".".

Definition assign_task (employee_id task : string) : M string :=
  do known <- tasks_mem employee_id;
  if negb known then ret not_found_msg else
  exec tasks_mutate employee_id (λ r, mkTasks (tasks r ++ [task]) (completed r));
  ret (assigned_msg task employee_id).

Definition task_not_found_msg (task employee_id : string) : string :=
  "Task '" +:+ task +:+ "' not found for " +:+ employee_id +:+ ".".

Definition already_completed_msg (task : string) : string :=
  "Task '" +:+ task +:+ "' is already marked as completed.".

Definition completed_msg (task employee_id : string) : string :=
  "Task '" +:+ task +:+ "' marked as completed for " +:+ employee_id +:+ ".".

Definition complete_task (employee_id task : string) : M string :=
  do known <- tasks_mem employee_id;
  if negb known then ret not_found_msg else
  do r <- tasks_item employee_id;
  if negb (Py.contains task (tasks r)) then
    ret (task_not_found_msg task employee_id)
  else
    do r <- tasks_item employee_id;
    if Py.contains task (completed r) then
      ret (already_completed_msg task)
    else
      exec tasks_mutate employee_id (λ r, mkTasks (tasks r) (completed r ++ [task]));
      ret (completed_msg task employee_id).

(** [[task for task in ts if task not in done]] *)
Fixpoint pending_of (ts done : list string) : list string :=
  match ts with
  | [] => []
  | task :: ts' =>
      if negb (Py.contains task done) then task :: pending_of ts' done
      else pending_of ts' done
  end.

Definition pending_text (pending : list string) : string :=
  match pending with
  | [] => "No pending tasks."
  | _ :: _ => Py.join ", " pending
  end.

Definition completed_text (completed : list string) : string :=
  match completed with
  | [] => "No tasks completed yet."
  | _ :: _ => Py.join ", " completed
  end.

Definition tasks_msg (employee_id : string) (completed pending : list string) : string :=
  "Tasks for " +:+ employee_id +:+ ":" +:+ Py.nl
    +:+ "✅ Completed: " +:+ completed_text completed +:+ Py.nl
    +:+ "🕒 Pending: " +:+ pending_text pending.

Definition view_tasks (employee_id : string) : M string :=
  do known <- tasks_mem employee_id;
  if negb known then ret not_found_msg else
  do r <- tasks_item employee_id;
  let pending := pending_of (tasks r) (completed r) in
  do r' <- tasks_item employee_id;
  let completed := completed r' in
  ret (tasks_msg employee_id completed pending).

(** ** Greeting resource *)

Definition get_greeting (name : string) : string :=
  "Hello, " +:+ name
    +:+ "! Welcome to the Employee Manager. How can I assist you today?".

(** ** The server: tools invoked one after the other on the shared stores *)

Section Server.

(** [plot_leave_balances] hands the keys and the balances to matplotlib
    and returns the PNG it draws, base64-encoded.  The drawing is outside
    the program; it is a parameter here. *)
Variable chart_png_base64 : list string → list Z → string.

Definition plot_leave_balances : M string :=
  do items <- leaves_items;
  let employees := dict_keys items in
  let balances := balance <$> dict_values items in
  ret ("data:image/png;base64," +:+ chart_png_base64 employees balances).

Inductive Call : Type :=
| GetLeaveBalance (employee_id : string)
| ApplyLeave (employee_id : string) (leave_dates : list string)
| GetLeaveHistory (employee_id : string)
| VisualizeLeaveSummary
| PlotLeaveBalances
| AssignTask (employee_id task : string)
| CompleteTask (employee_id task : string)
| ViewTasks (employee_id : string)
| GetGreeting (name : string).

Definition handle (c : Call) : M string :=
  match c with
  | GetLeaveBalance employee_id => get_leave_balance employee_id
  | ApplyLeave employee_id leave_dates => apply_leave employee_id leave_dates
  | GetLeaveHistory employee_id => get_leave_history employee_id
  | VisualizeLeaveSummary => visualize_leave_summary
  | PlotLeaveBalances => plot_leave_balances
  | AssignTask employee_id task => assign_task employee_id task
  | CompleteTask employee_id task => complete_task employee_id task
  | ViewTasks employee_id => view_tasks employee_id
  | GetGreeting name => ret (get_greeting name)
  end.

(** The state left by a sequence of calls. *)
Fixpoint serve (calls : list Call) (st : State) : State :=
  match calls with
  | [] => st
  | c :: calls' => serve calls' (handle c st).2
  end.

End Server.

(** A sequence of [apply_leave] calls, with the state after each of them. *)
Fixpoint apply_leave_trace (calls : list (string * list string)) (st : State)
    : list State :=
  match calls with
  | [] => []
  | (employee_id, leave_dates) :: calls' =>
      let st' := (apply_leave employee_id leave_dates st).2 in
      st' :: apply_leave_trace calls' st'
  end.

(** The pending tasks as the specification words them: the elements of
    [tasks] whose name is not a member of [completed], in [tasks] order. *)
Definition pending_spec (r : TaskRecord) : list string :=
  filter (λ task, task ∉ completed r) (tasks r).

(** The two mutations of [apply_leave] seen as one. *)
Definition deduct (requested_days : Z) (leave_dates : list string)
    (r : LeaveRecord) : LeaveRecord :=
  mkLeave (balance r - requested_days) (history r ++ leave_dates).

(** Every stored balance lies between [lo] and [hi]. *)
Definition balances_within (lo hi : Z) (st : State) : Prop :=
  Forall (λ kv, lo ≤ balance kv.2 ≤ hi) (employee_leaves st).

(** Every [completed] list is free of duplicates and names only tasks that
    occur in [tasks]. *)
Definition completed_sound (st : State) : Prop :=
  Forall (λ kv, NoDup (completed kv.2) ∧ completed kv.2 ⊆ tasks kv.2)
         (employee_tasks st).

(** What the two summaries read of [employee_leaves]: the ids and the
    balances, in the order of the store. *)
Definition leave_snapshot (st : State) : list (string * Z) :=
  map (λ kv, (kv.1, balance kv.2)) (employee_leaves st).

(** The calls whose tool has no assignment to a store. *)
Definition read_only (c : Call) : bool :=
  match c with
  | ApplyLeave _ _ | AssignTask _ _ | CompleteTask _ _ => false
  | _ => true
  end.

(** * Facts about the Python primitives *)

Section PyFacts.

Lemma contains_true x l : Py.contains x l = true ↔ x ∈ l.
Proof.
  induction l as [|y l IH]; simpl.
  - split; [discriminate | intros H; inversion H].
  - destruct (decide (y = x)) as [->|Hne].
    + split; [intros _; left | reflexivity].
    + rewrite IH. split; [by right | intros H].
      apply elem_of_cons in H as [Heq|]; [congruence | done].
Qed.

Lemma contains_false x l : Py.contains x l = false ↔ x ∉ l.
Proof.
  rewrite <- contains_true. destruct (Py.contains x l); split; congruence.
Qed.

Lemma len_app s t : Py.len (s +:+ t) = (Py.len s + Py.len t)%nat.
Proof. induction s as [|c s IH]; simpl; [done | rewrite IH; lia]. Qed.

Lemma len_repeat_nat s n : Py.len (Py.repeat_nat s n) = (n * Py.len s)%nat.
Proof. induction n as [|n IH]; simpl; [done | rewrite len_app, IH; lia]. Qed.

Lemma mul_nonpos s n : n ≤ 0 → Py.mul s n = "".
Proof. intros H. unfold Py.mul. by replace (Z.to_nat n) with O by lia. Qed.

Lemma len_mul s n : 0 ≤ n → Z.of_nat (Py.len (Py.mul s n)) = n * Z.of_nat (Py.len s).
Proof. intros H. unfold Py.mul. rewrite len_repeat_nat. lia. Qed.

End PyFacts.

(** * Facts about dictionaries *)

Section DictFacts.
Context {V : Type}.
Implicit Types (d : dict V) (k : string) (f : V → V).

Lemma dict_mem_get k d : dict_mem k d = bool_decide (is_Some (dict_get k d)).
Proof.
  unfold dict_mem. destruct (dict_get k d) eqn:E.
  - symmetry. apply bool_decide_eq_true. eauto.
  - symmetry. apply bool_decide_eq_false. by intros [? ?].
Qed.

Lemma dict_get_alter f k d : dict_get k (dict_alter f k d) = f <$> dict_get k d.
Proof.
  induction d as [|[k' v] d IH]; simpl; [done|].
  destruct (decide (k' = k)) as [->|Hne]; simpl.
  - by rewrite decide_True.
  - by rewrite decide_False.
Qed.

Lemma dict_get_alter_ne f k k' d :
  k ≠ k' → dict_get k' (dict_alter f k d) = dict_get k' d.
Proof.
  intros Hne. induction d as [|[k0 v] d IH]; simpl; [done|].
  destruct (decide (k0 = k)) as [->|Hne0]; simpl.
  - by rewrite !decide_False.
  - by rewrite IH.
Qed.

Lemma dict_keys_alter f k d : dict_keys (dict_alter f k d) = dict_keys d.
Proof.
  unfold dict_keys. induction d as [|[k' v] d IH]; simpl; [done|].
  destruct (decide (k' = k)); simpl; [done | f_equal; exact IH].
Qed.

Lemma dict_alter_compose f g k d :
  dict_alter g k (dict_alter f k d) = dict_alter (g ∘ f) k d.
Proof.
  induction d as [|[k' v] d IH]; simpl; [done|].
  destruct (decide (k' = k)) as [->|Hne]; simpl.
  - by rewrite decide_True.
  - by rewrite decide_False, IH.
Qed.

Lemma dict_alter_ext f g k d :
  (∀ v, dict_get k d = Some v → f v = g v) → dict_alter f k d = dict_alter g k d.
Proof.
  induction d as [|[k' v] d IH]; simpl; [done|]. intros Hfg.
  destruct (decide (k' = k)) as [->|Hne].
  - by rewrite Hfg.
  - by rewrite IH.
Qed.

Lemma dict_alter_id k d : dict_alter id k d = d.
Proof.
  induction d as [|[k' v] d IH]; simpl; [done|].
  destruct (decide (k' = k)); [done | by rewrite IH].
Qed.

Lemma dict_alter_absent f k d : dict_get k d = None → dict_alter f k d = d.
Proof.
  induction d as [|[k' v] d IH]; simpl; [done|].
  destruct (decide (k' = k)); [done | intros H; by rewrite IH].
Qed.

Lemma dict_get_elem_of k v d : dict_get k d = Some v → (k, v) ∈ d.
Proof.
  induction d as [|[k' v'] d IH]; simpl; [done|].
  destruct (decide (k' = k)) as [->|Hne].
  - intros [= ->]. left.
  - intros H. right. by apply IH.
Qed.

Lemma dict_get_keys k d : is_Some (dict_get k d) ↔ k ∈ dict_keys d.
Proof.
  unfold dict_keys. induction d as [|[k' v] d IH]; simpl.
  - split; [by intros [? ?] | intros H; inversion H].
  - destruct (decide (k' = k)) as [->|Hne].
    + split; [intros _; left | eauto].
    + rewrite IH. split; [by right | intros H].
      apply elem_of_cons in H as [Heq|]; [congruence | done].
Qed.

(** A property of all stored values survives a mutation that keeps it. *)
Lemma Forall_dict_alter (P : V → Prop) f k d :
  (∀ v, dict_get k d = Some v → P v → P (f v)) →
  Forall (λ kv, P kv.2) d → Forall (λ kv, P kv.2) (dict_alter f k d).
Proof.
  induction d as [|[k' v] d IH]; simpl; [done|]. intros Hf Hd.
  apply Forall_cons in Hd as [Hv Hd]. destruct (decide (k' = k)) as [->|Hne].
  - apply Forall_cons. split; [by apply Hf | done].
  - apply Forall_cons. split; [done | by apply IH].
Qed.

Lemma Forall_dict_get (P : V → Prop) k v d :
  Forall (λ kv, P kv.2) d → dict_get k d = Some v → P v.
Proof.
  intros Hd Hk. apply dict_get_elem_of in Hk.
  by apply (proj1 (Forall_forall _ _) Hd (k, v)).
Qed.

End DictFacts.

(** * What each tool computes, as one equation per tool *)

Section ToolEquations.
Implicit Types (st : State) (employee_id task : string).

Lemma get_leave_balance_eq employee_id st :
  get_leave_balance employee_id st =
  match dict_get employee_id (employee_leaves st) with
  | Some data =>
      (Returned (employee_id +:+ " has " +:+ Py.str_of_int (balance data)
                   +:+ " leave days remaining."), st)
  | None => (Returned not_found_msg, st)
  end.
Proof.
  unfold get_leave_balance, bind, leaves_get, ret.
  by destruct (dict_get employee_id (employee_leaves st)).
Qed.

Lemma get_leave_history_eq employee_id st :
  get_leave_history employee_id st =
  match dict_get employee_id (employee_leaves st) with
  | Some data =>
      (Returned ("Leave history for " +:+ employee_id +:+ ": " +:+
                 match history data with
                 | [] => "No leaves taken."
                 | _ :: _ => Py.join ", " (history data)
                 end), st)
  | None => (Returned not_found_msg, st)
  end.
Proof.
  unfold get_leave_history, bind, leaves_get, ret.
  by destruct (dict_get employee_id (employee_leaves st)).
Qed.

Lemma apply_leave_eq employee_id leave_dates st :
  apply_leave employee_id leave_dates st =
  match dict_get employee_id (employee_leaves st) with
  | None => (Returned not_found_msg, st)
  | Some r =>
      let n := Z.of_nat (length leave_dates) in
      if balance r <? n then (Returned (insufficient_msg n (balance r)), st)
      else (Returned (applied_msg n (balance r - n)),
            mkState (dict_alter (deduct n leave_dates) employee_id (employee_leaves st))
                    (employee_tasks st))
  end.
Proof.
  unfold apply_leave, bind, leaves_mem, leaves_item, leaves_mutate, ret, dict_mem.
  destruct (dict_get employee_id (employee_leaves st)) as [r|] eqn:Hr; simpl; [|done].
  rewrite Hr. destruct (balance r <? _); simpl; [done|].
  rewrite Hr; simpl. rewrite !dict_get_alter, Hr; simpl.
  rewrite !dict_get_alter, Hr; simpl. by rewrite dict_alter_compose.
Qed.

Lemma apply_leave_covered employee_id leave_dates st r :
  dict_get employee_id (employee_leaves st) = Some r →
  Z.of_nat (length leave_dates) ≤ balance r →
  apply_leave employee_id leave_dates st =
    (Returned (applied_msg (Z.of_nat (length leave_dates))
                 (balance r - Z.of_nat (length leave_dates))),
     mkState (dict_alter (deduct (Z.of_nat (length leave_dates)) leave_dates)
                         employee_id (employee_leaves st))
             (employee_tasks st)).
Proof.
  intros Hr Hle. rewrite apply_leave_eq, Hr. cbv zeta.
  by rewrite (proj2 (Z.ltb_ge _ _) Hle).
Qed.

Lemma assign_task_eq employee_id task st :
  assign_task employee_id task st =
  match dict_get employee_id (employee_tasks st) with
  | None => (Returned not_found_msg, st)
  | Some _ =>
      (Returned (assigned_msg task employee_id),
       mkState (employee_leaves st)
               (dict_alter (λ r, mkTasks (tasks r ++ [task]) (completed r))
                           employee_id (employee_tasks st)))
  end.
Proof.
  unfold assign_task, bind, tasks_mem, tasks_mutate, ret, dict_mem.
  destruct (dict_get employee_id (employee_tasks st)) as [r|] eqn:Hr; simpl; [|done].
  by rewrite Hr.
Qed.

Lemma complete_task_eq employee_id task st :
  complete_task employee_id task st =
  match dict_get employee_id (employee_tasks st) with
  | None => (Returned not_found_msg, st)
  | Some r =>
      if negb (Py.contains task (tasks r)) then
        (Returned (task_not_found_msg task employee_id), st)
      else if Py.contains task (completed r) then
        (Returned (already_completed_msg task), st)
      else
        (Returned (completed_msg task employee_id),
         mkState (employee_leaves st)
                 (dict_alter (λ r, mkTasks (tasks r) (completed r ++ [task]))
                             employee_id (employee_tasks st)))
  end.
Proof.
  unfold complete_task, bind, tasks_mem, tasks_item, tasks_mutate, ret, dict_mem.
  destruct (dict_get employee_id (employee_tasks st)) as [r|] eqn:Hr; simpl; [|done].
  rewrite Hr. destruct (Py.contains task (tasks r)); simpl; [|done].
  rewrite Hr. destruct (Py.contains task (completed r)); simpl; [done|].
  by rewrite Hr.
Qed.

Lemma view_tasks_eq employee_id st :
  view_tasks employee_id st =
  match dict_get employee_id (employee_tasks st) with
  | None => (Returned not_found_msg, st)
  | Some r =>
      (Returned (tasks_msg employee_id (completed r)
                   (pending_of (tasks r) (completed r))), st)
  end.
Proof.
  unfold view_tasks, bind, tasks_mem, tasks_item, ret, dict_mem.
  destruct (dict_get employee_id (employee_tasks st)) as [r|] eqn:Hr; simpl; [|done].
  by rewrite !Hr.
Qed.

Lemma summary_loop_eq items summary_lines :
  summary_loop items summary_lines =
  (summary_lines ++ map (λ kv, summary_line kv.1 kv.2) items)%list.
Proof.
  revert summary_lines.
  induction items as [|[emp_id data] items IH]; intros acc; simpl.
  - by rewrite app_nil_r.
  - by rewrite IH, <- app_assoc.
Qed.

Lemma visualize_leave_summary_closed st :
  visualize_leave_summary st =
    (Returned (Py.join Py.nl
                 (summary_header :: map (λ kv, summary_line kv.1 kv.2)
                                        (employee_leaves st))), st).
Proof.
  unfold visualize_leave_summary, bind, leaves_items, ret.
  by rewrite summary_loop_eq.
Qed.

Lemma pending_of_spec r : pending_of (tasks r) (completed r) = pending_spec r.
Proof.
  unfold pending_spec. induction (tasks r) as [|task ts IH]; simpl; [done|].
  destruct (Py.contains task (completed r)) eqn:Hc; simpl.
  - apply contains_true in Hc. by rewrite filter_cons_False by tauto.
  - apply contains_false in Hc. by rewrite filter_cons_True, IH by done.
Qed.

End ToolEquations.

(** * Leave requests *)

(** C1: for a known employee, a request of more dates than the balance is
    answered with the insufficiency message, which carries the requested
    count and the available balance, and the state (hence the employee's
    balance and history) is left as it was. *)
Theorem apply_leave_insufficient_balance st employee_id r leave_dates :
  dict_get employee_id (employee_leaves st) = Some r →
  balance r < Z.of_nat (length leave_dates) →
  apply_leave employee_id leave_dates st =
    (Returned ("Insufficient leave balance. You requested "
                 +:+ Py.str_of_int (Z.of_nat (length leave_dates))
                 +:+ " day(s) but have only "
                 +:+ Py.str_of_int (balance r) +:+ "."),
     st).
Proof.
  intros Hr Hlt. rewrite apply_leave_eq, Hr; simpl.
  by rewrite (proj2 (Z.ltb_lt _ _) Hlt).
Qed.

Lemma apply_leave_insufficient_balance_witness :
  dict_get "E001" (employee_leaves initial_state)
    = Some (mkLeave 18 ["2024-12-25"; "2025-01-01"]) ∧
  18 < Z.of_nat (length (replicate 19 "2025-03-01")) ∧
  apply_leave "E001" (replicate 19 "2025-03-01") initial_state =
    (Returned "Insufficient leave balance. You requested 19 day(s) but have only 18.",
     initial_state).
Proof.
  split; [reflexivity|]. split; [simpl; lia|].
  apply (apply_leave_insufficient_balance initial_state "E001"
           (mkLeave 18 ["2024-12-25"; "2025-01-01"]) (replicate 19 "2025-03-01"));
    [reflexivity | simpl; lia].
Defined.

(** C3: for a known employee and a request of at most the balance, the
    balance drops by exactly the number of dates and the history becomes the
    old history followed by the requested dates, whatever the strings are
    (duplicates kept, nothing validated). *)
Theorem apply_leave_deducts_and_appends st employee_id r leave_dates :
  dict_get employee_id (employee_leaves st) = Some r →
  Z.of_nat (length leave_dates) ≤ balance r →
  let n := Z.of_nat (length leave_dates) in
  let st' := (apply_leave employee_id leave_dates st).2 in
  (apply_leave employee_id leave_dates st).1
    = Returned (applied_msg n (balance r - n)) ∧
  dict_get employee_id (employee_leaves st')
    = Some (mkLeave (balance r - n) (history r ++ leave_dates)).
Proof.
  intros Hr Hle n st'. subst n st'.
  rewrite (apply_leave_covered _ _ _ _ Hr Hle); simpl.
  split; [done|]. by rewrite dict_get_alter, Hr.
Qed.

Lemma apply_leave_deducts_and_appends_witness :
  dict_get "E001" (employee_leaves initial_state)
    = Some (mkLeave 18 ["2024-12-25"; "2025-01-01"]) ∧
  Z.of_nat (length ["2025-03-01"; "not a date"; "2025-03-01"]) ≤ 18 ∧
  (apply_leave "E001" ["2025-03-01"; "not a date"; "2025-03-01"] initial_state).1
    = Returned "Leave applied for 3 day(s). Remaining balance: 15." ∧
  dict_get "E001"
    (employee_leaves
       (apply_leave "E001" ["2025-03-01"; "not a date"; "2025-03-01"] initial_state).2)
    = Some (mkLeave 15 ["2024-12-25"; "2025-01-01";
                        "2025-03-01"; "not a date"; "2025-03-01"]).
Proof.
  split; [reflexivity|]. split; [simpl; lia|].
  apply (apply_leave_deducts_and_appends initial_state "E001"
           (mkLeave 18 ["2024-12-25"; "2025-01-01"])
           ["2025-03-01"; "not a date"; "2025-03-01"]);
    [reflexivity | simpl; lia].
Defined.

(** * Tasks *)

(** The three answers of [complete_task] for a known employee differ from one
    another whatever the task name and the employee id are. *)
Lemma task_not_found_msg_distinct task employee_id :
  task_not_found_msg task employee_id ≠ already_completed_msg task ∧
  task_not_found_msg task employee_id ≠ completed_msg task employee_id.
Proof.
  unfold task_not_found_msg, already_completed_msg, completed_msg.
  split; intros H;
    apply (inj (String.app "Task '")) in H;
    apply (inj (String.app task)) in H; discriminate H.
Qed.

(** C4: for a known employee, [complete_task] answers task-not-assigned
    exactly when the name does not occur in [tasks] (and then changes
    nothing); answers already-completed, changing nothing, when the name is
    in [tasks] and in [completed]; and otherwise appends the name once at the
    end of [completed]. *)
Theorem complete_task_cases st employee_id r task :
  dict_get employee_id (employee_tasks st) = Some r →
  ((complete_task employee_id task st).1
      = Returned (task_not_found_msg task employee_id) ↔ task ∉ tasks r) ∧
  (task ∉ tasks r →
     complete_task employee_id task st
       = (Returned (task_not_found_msg task employee_id), st)) ∧
  (task ∈ tasks r → task ∈ completed r →
     complete_task employee_id task st
       = (Returned (already_completed_msg task), st)) ∧
  (task ∈ tasks r → task ∉ completed r →
     (complete_task employee_id task st).1
       = Returned (completed_msg task employee_id) ∧
     dict_get employee_id (employee_tasks (complete_task employee_id task st).2)
       = Some (mkTasks (tasks r) (completed r ++ [task]))).
Proof.
  intros Hr. rewrite complete_task_eq, Hr.
  destruct (task_not_found_msg_distinct task employee_id) as [Hd1 Hd2].
  destruct (Py.contains task (tasks r)) eqn:Ht; simpl.
  - apply contains_true in Ht.
    destruct (Py.contains task (completed r)) eqn:Hc; simpl.
    + apply contains_true in Hc. repeat split; try done.
      intros H. exfalso. apply Hd1. congruence.
    + apply contains_false in Hc. repeat split; try done.
      * intros H. exfalso. apply Hd2. congruence.
      * by rewrite dict_get_alter, Hr.
  - apply contains_false in Ht. repeat split; done.
Qed.

Lemma complete_task_cases_witness :
  dict_get "E001" (employee_tasks initial_state)
    = Some (mkTasks ["Prepare report"; "Attend meeting"] ["Prepare report"]) ∧
  complete_task "E001" "Prepare report" initial_state
    = (Returned "Task 'Prepare report' is already marked as completed.",
       initial_state) ∧
  complete_task "E001" "Water plants" initial_state
    = (Returned "Task 'Water plants' not found for E001.", initial_state) ∧
  dict_get "E001"
    (employee_tasks (complete_task "E001" "Attend meeting" initial_state).2)
    = Some (mkTasks ["Prepare report"; "Attend meeting"]
                    ["Prepare report"; "Attend meeting"]).
Proof.
  pose (r := mkTasks ["Prepare report"; "Attend meeting"] ["Prepare report"]).
  split; [reflexivity|]. split; [|split].
  - apply (complete_task_cases initial_state "E001" r "Prepare report");
      [reflexivity | apply contains_true; reflexivity ..].
  - apply (complete_task_cases initial_state "E001" r "Water plants");
      [reflexivity | apply contains_false; reflexivity].
  - apply (complete_task_cases initial_state "E001" r "Attend meeting");
      [reflexivity | apply contains_true; reflexivity
       | apply contains_false; reflexivity].
Defined.

(** C5: for a known employee, the pending list that [view_tasks] shows is
    the list of the elements of [tasks] whose name is not in [completed], in
    the order of [tasks]: the answer is the text below, whose last line is
    that list joined by ", " (or "No pending tasks." when it is empty).  A
    name that is in [completed] does not occur in the list at all, however
    many times it occurs in [tasks]. *)
Theorem view_tasks_pending st employee_id r :
  dict_get employee_id (employee_tasks st) = Some r →
  view_tasks employee_id st
    = (Returned
         ("Tasks for " +:+ employee_id +:+ ":
✅ Completed: "
            +:+ match completed r with
                | [] => "No tasks completed yet."
                | _ :: _ => Py.join ", " (completed r)
                end
            +:+ "
🕒 Pending: "
            +:+ match pending_spec r with
                | [] => "No pending tasks."
                | _ :: _ => Py.join ", " (pending_spec r)
                end),
       st) ∧
  pending_spec r `sublist_of` tasks r ∧
  (∀ task, task ∈ pending_spec r ↔ task ∈ tasks r ∧ task ∉ completed r) ∧
  (∀ task, task ∈ completed r → task ∉ pending_spec r).
Proof.
  intros Hr. rewrite view_tasks_eq, Hr, pending_of_spec.
  split; [reflexivity|]. unfold pending_spec.
  split; [apply sublist_filter|].
  split; intros task.
  - rewrite list_elem_of_filter. tauto.
  - rewrite list_elem_of_filter. tauto.
Qed.

Lemma view_tasks_pending_witness :
  let r := mkTasks ["Call"; "Mail"; "Call"; "File"] ["Call"] in
  let st := mkState initial_leaves [("E007", r)] in
  dict_get "E007" (employee_tasks st) = Some r ∧
  pending_spec r = ["Mail"; "File"] ∧
  view_tasks "E007" st
    = (Returned "Tasks for E007:
✅ Completed: Call
🕒 Pending: Mail, File", st).
Proof.
  intros r st. split; [reflexivity|]. split; [reflexivity|].
  apply (view_tasks_pending st "E007" r). reflexivity.
Defined.

(** * Unknown employees *)

(** C6: an id that is not a key of [employee_leaves] makes
    [get_leave_balance], [apply_leave] and [get_leave_history] answer
    "Employee ID not found."; an id that is not a key of [employee_tasks]
    makes [assign_task], [complete_task] and [view_tasks] answer the same.
    In all six cases the state, so both stores, is left as it was: no record
    is created. *)
Theorem unknown_employee_not_found st employee_id :
  (dict_get employee_id (employee_leaves st) = None →
     get_leave_balance employee_id st = (Returned "Employee ID not found.", st) ∧
     (∀ leave_dates,
        apply_leave employee_id leave_dates st
          = (Returned "Employee ID not found.", st)) ∧
     get_leave_history employee_id st = (Returned "Employee ID not found.", st)) ∧
  (dict_get employee_id (employee_tasks st) = None →
     (∀ task,
        assign_task employee_id task st = (Returned "Employee ID not found.", st)) ∧
     (∀ task,
        complete_task employee_id task st
          = (Returned "Employee ID not found.", st)) ∧
     view_tasks employee_id st = (Returned "Employee ID not found.", st)).
Proof.
  split; intros Hk.
  - rewrite get_leave_balance_eq, get_leave_history_eq, Hk.
    repeat split. intros leave_dates. by rewrite apply_leave_eq, Hk.
  - rewrite view_tasks_eq, Hk. repeat split; intros task.
    + by rewrite assign_task_eq, Hk.
    + by rewrite complete_task_eq, Hk.
Qed.

Lemma unknown_employee_not_found_witness :
  dict_get "E404" (employee_leaves initial_state) = None ∧
  dict_get "E404" (employee_tasks initial_state) = None ∧
  apply_leave "E404" ["2025-03-01"] initial_state
    = (Returned "Employee ID not found.", initial_state) ∧
  assign_task "E404" "Prepare report" initial_state
    = (Returned "Employee ID not found.", initial_state).
Proof.
  destruct (unknown_employee_not_found initial_state "E404") as [Hl Ht].
  split; [reflexivity|]. split; [reflexivity|]. split.
  - apply Hl. reflexivity.
  - apply Ht. reflexivity.
Defined.

(** * Frame *)

(** C10: [apply_leave] leaves the task store and every other employee's
    leave record as they were; [assign_task] and [complete_task] leave the
    leave store and every other employee's task record as they were.  The
    keys of the store that is written, and their order, stay the same. *)
Theorem tools_touch_one_record st employee_id :
  (∀ leave_dates,
     let st' := (apply_leave employee_id leave_dates st).2 in
     employee_tasks st' = employee_tasks st ∧
     dict_keys (employee_leaves st') = dict_keys (employee_leaves st) ∧
     ∀ other, other ≠ employee_id →
       dict_get other (employee_leaves st') = dict_get other (employee_leaves st)) ∧
  (∀ task,
     let st' := (assign_task employee_id task st).2 in
     employee_leaves st' = employee_leaves st ∧
     dict_keys (employee_tasks st') = dict_keys (employee_tasks st) ∧
     ∀ other, other ≠ employee_id →
       dict_get other (employee_tasks st') = dict_get other (employee_tasks st)) ∧
  (∀ task,
     let st' := (complete_task employee_id task st).2 in
     employee_leaves st' = employee_leaves st ∧
     dict_keys (employee_tasks st') = dict_keys (employee_tasks st) ∧
     ∀ other, other ≠ employee_id →
       dict_get other (employee_tasks st') = dict_get other (employee_tasks st)).
Proof.
  split; [|split].
  - intros leave_dates st'. subst st'. rewrite apply_leave_eq.
    destruct (dict_get employee_id (employee_leaves st)) as [r|]; simpl; [|done].
    destruct (balance r <? _); simpl; [done|].
    split; [done|]. split; [apply dict_keys_alter|].
    intros other Hne. by apply dict_get_alter_ne.
  - intros task st'. subst st'. rewrite assign_task_eq.
    destruct (dict_get employee_id (employee_tasks st)) as [r|]; simpl; [|done].
    split; [done|]. split; [apply dict_keys_alter|].
    intros other Hne. by apply dict_get_alter_ne.
  - intros task st'. subst st'. rewrite complete_task_eq.
    destruct (dict_get employee_id (employee_tasks st)) as [r|]; simpl; [|done].
    destruct (Py.contains task (tasks r)); simpl; [|done].
    destruct (Py.contains task (completed r)); simpl; [done|].
    split; [done|]. split; [apply dict_keys_alter|].
    intros other Hne. by apply dict_get_alter_ne.
Qed.

Lemma tools_touch_one_record_witness :
  "E002" ≠ "E001" ∧
  dict_get "E002"
    (employee_leaves (apply_leave "E001" ["2025-03-01"] initial_state).2)
    = Some (mkLeave 20 []) ∧
  dict_get "E002"
    (employee_tasks (complete_task "E001" "Attend meeting" initial_state).2)
    = Some (mkTasks ["Update website"; "Backup database"] []).
Proof.
  destruct (tools_touch_one_record initial_state "E001") as (Ha & _ & Hc).
  split; [discriminate|]. split.
  - destruct (Ha ["2025-03-01"]) as (_ & _ & Hother).
    rewrite (Hother "E002"); [reflexivity | discriminate].
  - destruct (Hc "Attend meeting") as (_ & _ & Hother).
    rewrite (Hother "E002"); [reflexivity | discriminate].
Defined.

(** * The text summary *)


(** * Balance invariants *)

Section Invariants.
Implicit Types (st : State) (employee_id : string).

Lemma initial_within : balances_within 0 20 initial_state.
Proof. unfold balances_within; simpl. repeat constructor; simpl; lia. Qed.

Lemma deduct_within hi n leave_dates r :
  0 ≤ n ≤ balance r → 0 ≤ balance r ≤ hi →
  0 ≤ balance (deduct n leave_dates r) ≤ hi.
Proof. unfold deduct; simpl. lia. Qed.

Lemma apply_leave_within hi employee_id leave_dates st :
  balances_within 0 hi st →
  balances_within 0 hi (apply_leave employee_id leave_dates st).2.
Proof.
  intros Hinv. rewrite apply_leave_eq.
  destruct (dict_get employee_id (employee_leaves st)) as [r|] eqn:Hr; simpl; [|done].
  destruct (balance r <? _) eqn:Hlt; simpl; [done|].
  apply Z.ltb_ge in Hlt. unfold balances_within; simpl.
  apply (Forall_dict_alter (λ v, 0 ≤ balance v ≤ hi)); [|exact Hinv].
  intros v Hv Hb. assert (v = r) as -> by congruence.
  apply deduct_within; lia.
Qed.

Lemma apply_leave_trace_within hi calls st :
  balances_within 0 hi st →
  Forall (balances_within 0 hi) (apply_leave_trace calls st).
Proof.
  revert st. induction calls as [|[employee_id leave_dates] calls IH];
    intros st Hinv; simpl; [constructor|].
  pose proof (apply_leave_within hi employee_id leave_dates st Hinv) as Hstep.
  constructor; [exact Hstep | exact (IH _ Hstep)].
Qed.

(** Only [apply_leave] writes to [employee_leaves], and it writes a
    deduction that the balance covers. *)
Lemma handle_leaves chart c st :
  employee_leaves (handle chart c st).2 = employee_leaves st ∨
  ∃ employee_id leave_dates r,
    dict_get employee_id (employee_leaves st) = Some r ∧
    0 ≤ Z.of_nat (length leave_dates) ≤ balance r ∧
    employee_leaves (handle chart c st).2
      = dict_alter (deduct (Z.of_nat (length leave_dates)) leave_dates)
                   employee_id (employee_leaves st).
Proof.
  destruct c as [k|k dates|k| | |k t|k t|k|name]; simpl.
  - left. rewrite get_leave_balance_eq. by destruct (dict_get _ _).
  - rewrite apply_leave_eq.
    destruct (dict_get k (employee_leaves st)) as [r|] eqn:Hr; simpl; [|by left].
    destruct (balance r <? _) eqn:Hlt; simpl; [by left|].
    apply Z.ltb_ge in Hlt. right. exists k, dates, r.
    split; [done|]. split; [lia | done].
  - left. rewrite get_leave_history_eq. by destruct (dict_get _ _).
  - by left.
  - by left.
  - left. rewrite assign_task_eq. by destruct (dict_get _ _).
  - left. rewrite complete_task_eq. destruct (dict_get _ _) as [r|]; [|done].
    destruct (Py.contains t (tasks r)); simpl; [|done].
    by destruct (Py.contains t (completed r)).
  - left. rewrite view_tasks_eq. by destruct (dict_get _ _).
  - by left.
Qed.

(** Every tool answers with a string: the [KeyError] of the subscripts is
    never raised, each being guarded by a membership test. *)
Lemma handle_returns chart c st : ∃ msg, (handle chart c st).1 = Returned msg.
Proof.
  destruct c as [k|k dates|k| | |k t|k t|k|name]; simpl.
  - rewrite get_leave_balance_eq. destruct (dict_get _ _); eauto.
  - rewrite apply_leave_eq. destruct (dict_get _ _) as [r|]; simpl; eauto.
    destruct (balance r <? _); eauto.
  - rewrite get_leave_history_eq. destruct (dict_get _ _); eauto.
  - unfold visualize_leave_summary, bind, leaves_items, ret. eauto.
  - unfold plot_leave_balances, bind, leaves_items, ret. eauto.
  - rewrite assign_task_eq. destruct (dict_get _ _); eauto.
  - rewrite complete_task_eq. destruct (dict_get _ _) as [r|]; eauto.
    destruct (Py.contains t (tasks r)); simpl; eauto.
    destruct (Py.contains t (completed r)); eauto.
  - rewrite view_tasks_eq. destruct (dict_get _ _); eauto.
  - unfold ret. eauto.
Qed.

Lemma handle_within chart hi c st :
  balances_within 0 hi st → balances_within 0 hi (handle chart c st).2.
Proof.
  intros Hinv. unfold balances_within.
  destruct (handle_leaves chart c st) as [->|(k & dates & r & Hr & Hn & ->)];
    [exact Hinv|].
  apply (Forall_dict_alter (λ v, 0 ≤ balance v ≤ hi)); [|exact Hinv].
  intros v Hv Hb. assert (v = r) as -> by congruence.
  by apply deduct_within.
Qed.

Lemma serve_within chart hi calls st :
  balances_within 0 hi st → balances_within 0 hi (serve chart calls st).
Proof.
  revert st. induction calls as [|c calls IH]; intros st Hinv; simpl; [done|].
  apply IH. by apply handle_within.
Qed.

Lemma handle_balance_le chart c st employee_id r :
  dict_get employee_id (employee_leaves st) = Some r →
  ∃ r', dict_get employee_id (employee_leaves (handle chart c st).2) = Some r' ∧
        balance r' ≤ balance r.
Proof.
  intros Hr.
  destruct (handle_leaves chart c st) as [->|(k & dates & r0 & Hr0 & Hn & ->)].
  - exists r. split; [done | lia].
  - destruct (decide (k = employee_id)) as [->|Hne].
    + rewrite dict_get_alter, Hr. eexists; split; [done|].
      unfold deduct; simpl. lia.
    + rewrite dict_get_alter_ne by done. exists r. split; [done | lia].
Qed.

Lemma deduct_nothing r : deduct 0 [] r = r.
Proof. destruct r as [b h]. unfold deduct; simpl. f_equal; [lia | apply app_nil_r]. Qed.

Lemma apply_leave_nothing st employee_id r :
  dict_get employee_id (employee_leaves st) = Some r →
  0 ≤ balance r →
  apply_leave employee_id [] st = (Returned (applied_msg 0 (balance r)), st).
Proof.
  intros Hr Hb. rewrite apply_leave_eq, Hr. cbv zeta.
  change (Z.of_nat (length (@nil string))) with 0.
  rewrite (proj2 (Z.ltb_ge _ _) Hb), Z.sub_0_r. f_equal.
  rewrite (dict_alter_ext _ id) by (intros; apply deduct_nothing).
  rewrite dict_alter_id. by destruct st.
Qed.

Lemma summary_bar_full r :
  0 ≤ balance r ≤ 20 →
  summary_bar r
    = Py.repeat_nat filled_glyph (Z.to_nat (balance r))
        +:+ Py.repeat_nat empty_glyph (20 - Z.to_nat (balance r)) ∧
  Py.len (summary_bar r) = 20%nat.
Proof.
  intros Hb. unfold summary_bar, Py.mul.
  replace (Z.to_nat (20 - balance r)) with (20 - Z.to_nat (balance r))%nat by lia.
  split; [done|]. rewrite len_app, !len_repeat_nat.
  change (Py.len filled_glyph) with 1%nat. change (Py.len empty_glyph) with 1%nat.
  lia.
Qed.

End Invariants.

(** C2: starting from the initial stores, after each call of any finite
    sequence of [apply_leave] calls, the balance of every employee is greater
    than or equal to zero. *)
Theorem balance_never_negative calls st employee_id r :
  st ∈ apply_leave_trace calls initial_state →
  dict_get employee_id (employee_leaves st) = Some r →
  0 ≤ balance r.
Proof.
  intros Hst Hr.
  pose proof (apply_leave_trace_within 20 calls initial_state initial_within) as Hall.
  pose proof (proj1 (Forall_forall _ _) Hall st Hst) as Hinv.
  apply (Forall_dict_get (λ v, 0 ≤ balance v ≤ 20) employee_id r) in Hinv; [lia | done].
Qed.

Lemma balance_never_negative_witness :
  let calls := [("E002", replicate 20 "2025-03-01"); ("E002", ["2025-04-01"])] in
  let st := (apply_leave "E002" (replicate 20 "2025-03-01") initial_state).2 in
  st ∈ apply_leave_trace calls initial_state ∧
  dict_get "E002" (employee_leaves st) = Some (mkLeave 0 (replicate 20 "2025-03-01")) ∧
  0 ≤ balance (mkLeave 0 (replicate 20 "2025-03-01")).
Proof.
  intros calls st.
  assert (st ∈ apply_leave_trace calls initial_state) as Hst by left.
  assert (dict_get "E002" (employee_leaves st)
            = Some (mkLeave 0 (replicate 20 "2025-03-01"))) as Hr by reflexivity.
  split; [exact Hst|]. split; [exact Hr|].
  exact (balance_never_negative calls st "E002" _ Hst Hr).
Defined.

(** C8: no tool increases a balance and the initial balances are at most 20,
    so after any sequence of tool calls from the initial stores every balance
    is at most 20, [20 - balance] is not negative, and the bar of the summary
    is [balance] filled glyphs followed by [20 - balance] empty ones: 20
    glyphs. *)
Theorem balance_at_most_20 chart :
  (∀ c st employee_id r,
     dict_get employee_id (employee_leaves st) = Some r →
     ∃ r', dict_get employee_id (employee_leaves (handle chart c st).2) = Some r' ∧
           balance r' ≤ balance r) ∧
  Forall (λ kv, balance kv.2 ≤ 20) initial_leaves ∧
  (∀ calls employee_id r,
     dict_get employee_id (employee_leaves (serve chart calls initial_state)) = Some r →
     balance r ≤ 20 ∧ 0 ≤ 20 - balance r ∧
     summary_bar r
       = Py.repeat_nat filled_glyph (Z.to_nat (balance r))
           +:+ Py.repeat_nat empty_glyph (20 - Z.to_nat (balance r)) ∧
     Py.len (summary_bar r) = 20%nat).
Proof.
  split; [|split].
  - intros c st employee_id r. apply handle_balance_le.
  - repeat constructor; simpl; lia.
  - intros calls employee_id r Hr.
    pose proof (serve_within chart 20 calls initial_state initial_within) as Hinv.
    apply (Forall_dict_get (λ v, 0 ≤ balance v ≤ 20) employee_id r) in Hinv; [|done].
    destruct (summary_bar_full r Hinv) as [Hbar Hlen].
    repeat split; [lia | lia | exact Hbar | exact Hlen].
Qed.

Lemma balance_at_most_20_witness :
  let chart := λ (_ : list string) (_ : list Z), "" in
  let calls := [AssignTask "E001" "File taxes";
                ApplyLeave "E001" ["2025-03-01"; "2025-03-02"];
                PlotLeaveBalances; VisualizeLeaveSummary] in
  let r := mkLeave 16 ["2024-12-25"; "2025-01-01"; "2025-03-01"; "2025-03-02"] in
  dict_get "E001" (employee_leaves (serve chart calls initial_state)) = Some r ∧
  balance r ≤ 20 ∧
  Py.len (summary_bar r) = 20%nat.
Proof.
  intros chart calls r.
  assert (dict_get "E001" (employee_leaves (serve chart calls initial_state)) = Some r)
    as Hr by reflexivity.
  destruct (balance_at_most_20 chart) as (_ & _ & Hreach).
  destruct (Hreach calls "E001" r Hr) as (Hle & _ & _ & Hlen).
  split; [exact Hr|]. split; [exact Hle | exact Hlen].
Defined.

(** C9: in every state the tools can reach from the initial stores, an
    [apply_leave] with no dates succeeds for every known employee, answers
    for 0 day(s) and changes nothing, also at balance 0; the same holds in
    any state whose balance is not negative.  A request of exactly the
    balance succeeds and leaves balance 0. *)
Theorem apply_leave_empty_and_exact chart :
  (∀ calls employee_id r,
     let st := serve chart calls initial_state in
     dict_get employee_id (employee_leaves st) = Some r →
     apply_leave employee_id [] st
       = (Returned ("Leave applied for 0 day(s). Remaining balance: "
                      +:+ Py.str_of_int (balance r) +:+ "."), st)) ∧
  (∀ st employee_id r,
     dict_get employee_id (employee_leaves st) = Some r →
     0 ≤ balance r →
     apply_leave employee_id [] st
       = (Returned ("Leave applied for 0 day(s). Remaining balance: "
                      +:+ Py.str_of_int (balance r) +:+ "."), st)) ∧
  (∀ st employee_id r leave_dates,
     dict_get employee_id (employee_leaves st) = Some r →
     Z.of_nat (length leave_dates) = balance r →
     (apply_leave employee_id leave_dates st).1
       = Returned (applied_msg (balance r) 0) ∧
     dict_get employee_id
       (employee_leaves (apply_leave employee_id leave_dates st).2)
       = Some (mkLeave 0 (history r ++ leave_dates))).
Proof.
  split; [|split].
  - intros calls employee_id r st Hr. subst st.
    pose proof (serve_within chart 20 calls initial_state initial_within) as Hinv.
    apply (Forall_dict_get (λ v, 0 ≤ balance v ≤ 20) employee_id r) in Hinv; [|done].
    apply (apply_leave_nothing _ _ _ Hr). lia.
  - intros st employee_id r Hr Hb. by apply apply_leave_nothing.
  - intros st employee_id r leave_dates Hr Hn.
    rewrite (apply_leave_covered _ _ _ _ Hr) by lia; simpl.
    rewrite dict_get_alter, Hr, Hn, Z.sub_diag; simpl.
    split; [done|]. unfold deduct. by rewrite Z.sub_diag.
Qed.

Lemma apply_leave_empty_and_exact_witness :
  let chart := λ (_ : list string) (_ : list Z), "" in
  let calls := [ApplyLeave "E002" (replicate 20 "2025-03-01")] in
  let st := serve chart calls initial_state in
  dict_get "E002" (employee_leaves st) = Some (mkLeave 0 (replicate 20 "2025-03-01")) ∧
  apply_leave "E002" [] st
    = (Returned "Leave applied for 0 day(s). Remaining balance: 0.", st).
Proof.
  intros chart calls st.
  assert (dict_get "E002" (employee_leaves st)
            = Some (mkLeave 0 (replicate 20 "2025-03-01"))) as Hr by reflexivity.
  split; [exact Hr|].
  destruct (apply_leave_empty_and_exact chart) as (Hreach & _ & _).
  exact (Hreach calls "E002" _ Hr).
Defined.

(** * Further properties of the tools *)

Section StringFacts.

Lemma str_app_assoc (s t u : string) : (s +:+ t) +:+ u = s +:+ t +:+ u.
Proof.
  induction s as [|c s IH]; [done|].
  change (String c ((s +:+ t) +:+ u) = String c (s +:+ t +:+ u)). by rewrite IH.
Qed.

Lemma str_length_app (s t : string) :
  String.length (s +:+ t) = (String.length s + String.length t)%nat.
Proof.
  induction s as [|c s IH]; [done|].
  change (S (String.length (s +:+ t)) = S (String.length s + String.length t)).
  by rewrite IH.
Qed.

Lemma str_app_inv_tail (s1 s2 t : string) : s1 +:+ t = s2 +:+ t → s1 = s2.
Proof.
  revert s2. induction s1 as [|c s1 IH]; intros [|c2 s2] H.
  - done.
  - apply (f_equal String.length) in H.
    rewrite !str_length_app in H. simpl in H. lia.
  - apply (f_equal String.length) in H.
    rewrite !str_length_app in H. simpl in H. lia.
  - change (String c (s1 +:+ t) = String c2 (s2 +:+ t)) in H.
    injection H as -> H. f_equal. by apply IH.
Qed.

Lemma join_app sep (l1 l2 : list string) :
  l1 ≠ [] → l2 ≠ [] →
  Py.join sep (l1 ++ l2) = Py.join sep l1 +:+ sep +:+ Py.join sep l2.
Proof.
  intros H1 H2. induction l1 as [|x l1 IH]; [done|].
  destruct l1 as [|y l1].
  - simpl. by destruct l2.
  - change (Py.join sep ((x :: y :: l1) ++ l2))
      with (x +:+ sep +:+ Py.join sep ((y :: l1) ++ l2)).
    rewrite IH by done.
    change (Py.join sep (x :: y :: l1)) with (x +:+ sep +:+ Py.join sep (y :: l1)).
    by rewrite !str_app_assoc.
Qed.

End StringFacts.

(** X1: for a known employee, [get_leave_balance] called after [apply_leave]
    reports the balance less the number of requested dates when the request
    was covered, and the old balance when it was not. *)
Theorem leave_balance_after_apply st employee_id r leave_dates :
  dict_get employee_id (employee_leaves st) = Some r →
  let n := Z.of_nat (length leave_dates) in
  (get_leave_balance employee_id (apply_leave employee_id leave_dates st).2).1
    = Returned (employee_id +:+ " has "
                  +:+ Py.str_of_int (if decide (n ≤ balance r)
                                     then balance r - n else balance r)
                  +:+ " leave days remaining.").
Proof.
  intros Hr n. subst n. rewrite get_leave_balance_eq, apply_leave_eq, Hr. cbv zeta.
  destruct (decide (Z.of_nat (length leave_dates) ≤ balance r)) as [Hle|Hgt].
  - rewrite (proj2 (Z.ltb_ge _ _) Hle); simpl. by rewrite dict_get_alter, Hr.
  - rewrite (proj2 (Z.ltb_lt _ _)) by lia. simpl. by rewrite Hr.
Qed.

Lemma leave_balance_after_apply_witness :
  dict_get "E001" (employee_leaves initial_state)
    = Some (mkLeave 18 ["2024-12-25"; "2025-01-01"]) ∧
  (get_leave_balance "E001"
     (apply_leave "E001" ["2025-03-01"; "2025-03-02"] initial_state).2).1
    = Returned "E001 has 16 leave days remaining.".
Proof.
  split; [reflexivity|].
  apply (leave_balance_after_apply initial_state "E001"
           (mkLeave 18 ["2024-12-25"; "2025-01-01"]) ["2025-03-01"; "2025-03-02"]).
  reflexivity.
Defined.

(** X2: after a covered request of at least one date, [get_leave_history]
    shows the old history followed by the new dates, joined by ", " (the
    branch for an empty history is not taken); when the old history was not
    empty this is the old list, then ", ", then the new dates. *)
Theorem leave_history_after_apply st employee_id r leave_dates :
  dict_get employee_id (employee_leaves st) = Some r →
  Z.of_nat (length leave_dates) ≤ balance r →
  leave_dates ≠ [] →
  (get_leave_history employee_id (apply_leave employee_id leave_dates st).2).1
    = Returned ("Leave history for " +:+ employee_id +:+ ": "
                  +:+ Py.join ", " (history r ++ leave_dates)) ∧
  (history r ≠ [] →
     Py.join ", " (history r ++ leave_dates)
       = Py.join ", " (history r) +:+ ", " +:+ Py.join ", " leave_dates).
Proof.
  intros Hr Hle Hne. split; [|intros Hh; by apply join_app].
  rewrite get_leave_history_eq, (apply_leave_covered _ _ _ _ Hr Hle); simpl.
  rewrite dict_get_alter, Hr; simpl.
  destruct (history r ++ leave_dates) as [|x l] eqn:Happ; [|done].
  apply app_eq_nil in Happ as [_ ?]. done.
Qed.

Lemma leave_history_after_apply_witness :
  dict_get "E001" (employee_leaves initial_state)
    = Some (mkLeave 18 ["2024-12-25"; "2025-01-01"]) ∧
  (get_leave_history "E001"
     (apply_leave "E001" ["2025-03-01"; "2025-03-02"] initial_state).2).1
    = Returned
        "Leave history for E001: 2024-12-25, 2025-01-01, 2025-03-01, 2025-03-02".
Proof.
  split; [reflexivity|].
  apply (leave_history_after_apply initial_state "E001"
           (mkLeave 18 ["2024-12-25"; "2025-01-01"]) ["2025-03-01"; "2025-03-02"]);
    [reflexivity | simpl; lia | discriminate].
Defined.

(** X3: dates are not validated, so the text shown for an empty history can
    also be a date: for an employee with an empty history and a balance of at
    least 1, a request for the single date "No leaves taken." is granted, and
    [get_leave_history] answers afterwards exactly what it answered before,
    although a day has been deducted and recorded. *)
Theorem leave_history_sentinel_ambiguous st employee_id r :
  dict_get employee_id (employee_leaves st) = Some r →
  history r = [] →
  1 ≤ balance r →
  let st' := (apply_leave employee_id ["No leaves taken."] st).2 in
  dict_get employee_id (employee_leaves st')
    = Some (mkLeave (balance r - 1) ["No leaves taken."]) ∧
  (get_leave_history employee_id st').1 = (get_leave_history employee_id st).1.
Proof.
  intros Hr Hh Hb st'. subst st'.
  rewrite (apply_leave_covered _ _ _ _ Hr) by (simpl; lia); simpl.
  rewrite !get_leave_history_eq; simpl.
  rewrite dict_get_alter, Hr; simpl. unfold deduct. rewrite Hh; simpl.
  split; done.
Qed.

Lemma leave_history_sentinel_ambiguous_witness :
  dict_get "E002" (employee_leaves initial_state) = Some (mkLeave 20 []) ∧
  (get_leave_history "E002"
     (apply_leave "E002" ["No leaves taken."] initial_state).2).1
    = Returned "Leave history for E002: No leaves taken." ∧
  (get_leave_history "E002" initial_state).1
    = Returned "Leave history for E002: No leaves taken.".
Proof.
  split; [reflexivity|].
  destruct (leave_history_sentinel_ambiguous initial_state "E002" (mkLeave 20 []))
    as [_ Heq]; [reflexivity | reflexivity | simpl; lia |].
  split; [rewrite Heq; reflexivity | reflexivity].
Defined.

(** X4: two requests in a row that the balance covers together leave the
    stores exactly as the single request for the dates of the first followed
    by the dates of the second does. *)
Theorem apply_leave_twice_is_once st employee_id r dates1 dates2 :
  dict_get employee_id (employee_leaves st) = Some r →
  Z.of_nat (length dates1) + Z.of_nat (length dates2) ≤ balance r →
  (apply_leave employee_id dates2 (apply_leave employee_id dates1 st).2).2
    = (apply_leave employee_id (dates1 ++ dates2) st).2.
Proof.
  intros Hr Hle.
  rewrite (apply_leave_covered employee_id dates1 st r Hr) by lia; simpl.
  rewrite (apply_leave_covered employee_id (dates1 ++ dates2) st r Hr)
    by (rewrite length_app; lia); simpl.
  erewrite (apply_leave_covered employee_id dates2); simpl.
  - rewrite dict_alter_compose. f_equal. apply dict_alter_ext.
    intros v _. unfold deduct; simpl. rewrite length_app, <- app_assoc.
    f_equal. lia.
  - by rewrite dict_get_alter, Hr.
  - simpl. lia.
Qed.

Lemma apply_leave_twice_is_once_witness :
  dict_get "E001" (employee_leaves initial_state)
    = Some (mkLeave 18 ["2024-12-25"; "2025-01-01"]) ∧
  Z.of_nat (length ["2025-03-01"]) + Z.of_nat (length ["2025-03-02"; "2025-03-03"])
    ≤ 18 ∧
  (apply_leave "E001" ["2025-03-02"; "2025-03-03"]
     (apply_leave "E001" ["2025-03-01"] initial_state).2).2
    = (apply_leave "E001" ["2025-03-01"; "2025-03-02"; "2025-03-03"] initial_state).2.
Proof.
  split; [reflexivity|]. split; [simpl; lia|].
  apply (apply_leave_twice_is_once initial_state "E001"
           (mkLeave 18 ["2024-12-25"; "2025-01-01"])
           ["2025-03-01"] ["2025-03-02"; "2025-03-03"]);
    [reflexivity | simpl; lia].
Defined.

(** X5: the answer of [apply_leave] tells the three outcomes apart: it is
    "Employee ID not found." exactly when the id is not a key of
    [employee_leaves]; for a known employee it is the insufficiency message
    exactly when the balance is below the number of dates, and the
    leave-applied message exactly when the balance covers them. *)
Theorem apply_leave_answer_tells st employee_id leave_dates :
  let answer := (apply_leave employee_id leave_dates st).1 in
  let n := Z.of_nat (length leave_dates) in
  (answer = Returned not_found_msg
     ↔ dict_get employee_id (employee_leaves st) = None) ∧
  (∀ r, dict_get employee_id (employee_leaves st) = Some r →
     (answer = Returned (insufficient_msg n (balance r)) ↔ balance r < n) ∧
     (answer = Returned (applied_msg n (balance r - n)) ↔ n ≤ balance r)).
Proof.
  intros answer n. subst answer n. rewrite apply_leave_eq.
  destruct (dict_get employee_id (employee_leaves st)) as [r|] eqn:Hr; cbv zeta.
  - destruct (balance r <? Z.of_nat (length leave_dates)) eqn:Hlt; simpl.
    + apply Z.ltb_lt in Hlt. split.
      * split; [intros H; discriminate H | done].
      * intros r0 [= <-]. split; [done|].
        split; [intros H; discriminate H | lia].
    + apply Z.ltb_ge in Hlt. split.
      * split; [intros H; discriminate H | done].
      * intros r0 [= <-]. split; [|done].
        split; [intros H; discriminate H | lia].
  - simpl. split; [done|]. intros r [=].
Qed.

Lemma apply_leave_answer_tells_witness :
  dict_get "E001" (employee_leaves initial_state)
    = Some (mkLeave 18 ["2024-12-25"; "2025-01-01"]) ∧
  ((apply_leave "E001" ["2025-03-01"] initial_state).1
     = Returned (insufficient_msg 1 18) ↔ 18 < 1).
Proof.
  split; [reflexivity|].
  destruct (apply_leave_answer_tells initial_state "E001" ["2025-03-01"]) as [_ Hk].
  destruct (Hk (mkLeave 18 ["2024-12-25"; "2025-01-01"])) as [Hins _];
    [reflexivity | exact Hins].
Defined.

(** X6: the answer of [get_leave_balance] determines the balance: for one
    employee id, two states give the same answer only when the balances are
    equal. *)
Theorem leave_balance_answer_faithful st1 st2 employee_id r1 r2 :
  dict_get employee_id (employee_leaves st1) = Some r1 →
  dict_get employee_id (employee_leaves st2) = Some r2 →
  (get_leave_balance employee_id st1).1 = (get_leave_balance employee_id st2).1 →
  balance r1 = balance r2.
Proof.
  intros H1 H2. rewrite !get_leave_balance_eq, H1, H2; simpl. intros [= H].
  apply (inj (String.app employee_id)) in H.
  apply (inj (String.app " has ")) in H.
  apply str_app_inv_tail in H. unfold Py.str_of_int in H.
  by apply (inj pretty) in H.
Qed.

Lemma leave_balance_answer_faithful_witness :
  let st2 := (apply_leave "E001" [] initial_state).2 in
  dict_get "E001" (employee_leaves initial_state)
    = Some (mkLeave 18 ["2024-12-25"; "2025-01-01"]) ∧
  dict_get "E001" (employee_leaves st2)
    = Some (mkLeave 18 ["2024-12-25"; "2025-01-01"]) ∧
  (get_leave_balance "E001" initial_state).1 = (get_leave_balance "E001" st2).1 ∧
  balance (mkLeave 18 ["2024-12-25"; "2025-01-01"])
    = balance (mkLeave 18 ["2024-12-25"; "2025-01-01"]).
Proof.
  intros st2. split; [reflexivity|]. split; [reflexivity|]. split; [reflexivity|].
  apply (leave_balance_answer_faithful initial_state st2 "E001"); reflexivity.
Defined.

Section PendingFacts.

Lemma pending_of_filter (ts done : list string) :
  pending_of ts done = filter (λ task, task ∉ done) ts.
Proof. exact (pending_of_spec (mkTasks ts done)). Qed.

Lemma pending_of_app (ts us done : list string) :
  pending_of (ts ++ us) done = pending_of ts done ++ pending_of us done.
Proof. rewrite !pending_of_filter. apply filter_app. Qed.

Lemma pending_of_snoc_done (ts done : list string) (task : string) :
  pending_of ts (done ++ [task])
    = filter (λ x, x ≠ task) (pending_of ts done).
Proof.
  rewrite !pending_of_filter, list_filter_filter. apply list_filter_iff.
  intros x. rewrite not_elem_of_app, list_elem_of_singleton. tauto.
Qed.

End PendingFacts.

(** X7: for a known employee, [view_tasks] after [assign_task] shows the
    same completed list and the old pending list with the new name added at
    its end, unless the name is already in [completed]: then the pending
    list shown is the old one and the new assignment is not visible. *)
Theorem view_tasks_after_assign st employee_id r task :
  dict_get employee_id (employee_tasks st) = Some r →
  let pending :=
    (pending_spec r ++ (if decide (task ∈ completed r) then [] else [task]))%list in
  (view_tasks employee_id (assign_task employee_id task st).2).1
    = Returned
        ("Tasks for " +:+ employee_id +:+ ":
✅ Completed: "
           +:+ match completed r with
               | [] => "No tasks completed yet."
               | _ :: _ => Py.join ", " (completed r)
               end
           +:+ "
🕒 Pending: "
           +:+ match pending with
               | [] => "No pending tasks."
               | _ :: _ => Py.join ", " pending
               end).
Proof.
  intros Hr pending. subst pending.
  rewrite view_tasks_eq, assign_task_eq, Hr; simpl.
  rewrite dict_get_alter, Hr; simpl. rewrite pending_of_app, <- pending_of_spec.
  assert (pending_of [task] (completed r)
          = if decide (task ∈ completed r) then [] else [task]) as ->.
  { simpl. destruct (decide (task ∈ completed r)) as [Hin|Hnin].
    - by rewrite (proj2 (contains_true _ _) Hin).
    - by rewrite (proj2 (contains_false _ _) Hnin). }
  reflexivity.
Qed.

Lemma view_tasks_after_assign_witness :
  dict_get "E001" (employee_tasks initial_state)
    = Some (mkTasks ["Prepare report"; "Attend meeting"] ["Prepare report"]) ∧
  (view_tasks "E001" (assign_task "E001" "Prepare report" initial_state).2).1
    = Returned "Tasks for E001:
✅ Completed: Prepare report
🕒 Pending: Attend meeting" ∧
  (view_tasks "E001" (assign_task "E001" "File taxes" initial_state).2).1
    = Returned "Tasks for E001:
✅ Completed: Prepare report
🕒 Pending: Attend meeting, File taxes".
Proof.
  pose (r := mkTasks ["Prepare report"; "Attend meeting"] ["Prepare report"]).
  split; [reflexivity|]. split.
  - rewrite (view_tasks_after_assign initial_state "E001" r "Prepare report");
      reflexivity.
  - rewrite (view_tasks_after_assign initial_state "E001" r "File taxes");
      reflexivity.
Defined.

(** X8: for a known employee and a task that is assigned and not yet
    completed, [view_tasks] after [complete_task] shows the name added at the
    end of the completed list, and the old pending list without any
    occurrence of that name; the other pending names stay, in their order. *)
Theorem view_tasks_after_complete st employee_id r task :
  dict_get employee_id (employee_tasks st) = Some r →
  task ∈ tasks r →
  task ∉ completed r →
  let pending := filter (λ x, x ≠ task) (pending_spec r) in
  (view_tasks employee_id (complete_task employee_id task st).2).1
    = Returned
        ("Tasks for " +:+ employee_id +:+ ":
✅ Completed: "
           +:+ Py.join ", " (completed r ++ [task])
           +:+ "
🕒 Pending: "
           +:+ match pending with
               | [] => "No pending tasks."
               | _ :: _ => Py.join ", " pending
               end).
Proof.
  intros Hr Hin Hnin pending. subst pending.
  rewrite view_tasks_eq, complete_task_eq, Hr.
  rewrite (proj2 (contains_true _ _) Hin), (proj2 (contains_false _ _) Hnin); simpl.
  rewrite dict_get_alter, Hr; simpl.
  rewrite pending_of_snoc_done, <- pending_of_spec.
  unfold tasks_msg, completed_text.
  destruct (completed r ++ [task]) as [|x l] eqn:Happ; [|reflexivity].
  apply app_eq_nil in Happ as [_ ?]. done.
Qed.

Lemma view_tasks_after_complete_witness :
  dict_get "E002" (employee_tasks initial_state)
    = Some (mkTasks ["Update website"; "Backup database"] []) ∧
  (view_tasks "E002" (complete_task "E002" "Update website" initial_state).2).1
    = Returned "Tasks for E002:
✅ Completed: Update website
🕒 Pending: Backup database".
Proof.
  split; [reflexivity|].
  rewrite (view_tasks_after_complete initial_state "E002"
             (mkTasks ["Update website"; "Backup database"] []) "Update website");
    [reflexivity | reflexivity | apply contains_true; reflexivity
     | apply contains_false; reflexivity].
Defined.

(** X9: for a known employee, a task that has just been assigned can be
    completed unless its name is already in [completed]: [complete_task]
    after [assign_task] of the same name never answers task-not-found; it
    answers already-completed and changes nothing when the name was in
    [completed], and otherwise it is granted and leaves the name at the end
    of both [tasks] and [completed]. *)
Theorem assign_then_complete st employee_id r task :
  dict_get employee_id (employee_tasks st) = Some r →
  let st1 := (assign_task employee_id task st).2 in
  (task ∈ completed r →
     complete_task employee_id task st1
       = (Returned (already_completed_msg task), st1)) ∧
  (task ∉ completed r →
     (complete_task employee_id task st1).1
       = Returned (completed_msg task employee_id) ∧
     dict_get employee_id (employee_tasks (complete_task employee_id task st1).2)
       = Some (mkTasks (tasks r ++ [task]) (completed r ++ [task]))).
Proof.
  intros Hr st1. subst st1. rewrite complete_task_eq, assign_task_eq, Hr; simpl.
  rewrite dict_get_alter, Hr; simpl.
  assert (Py.contains task (tasks r ++ [task]) = true) as ->.
  { apply contains_true, elem_of_app. right. by apply list_elem_of_singleton. }
  simpl. split; intros Hc.
  - by rewrite (proj2 (contains_true _ _) Hc).
  - rewrite (proj2 (contains_false _ _) Hc); simpl. split; [done|].
    by rewrite dict_alter_compose, dict_get_alter, Hr.
Qed.

Lemma assign_then_complete_witness :
  dict_get "E002" (employee_tasks initial_state)
    = Some (mkTasks ["Update website"; "Backup database"] []) ∧
  dict_get "E002"
    (employee_tasks
       (complete_task "E002" "Call bank"
          (assign_task "E002" "Call bank" initial_state).2).2)
    = Some (mkTasks ["Update website"; "Backup database"; "Call bank"] ["Call bank"]).
Proof.
  split; [reflexivity|].
  apply (assign_then_complete initial_state "E002"
           (mkTasks ["Update website"; "Backup database"] []) "Call bank");
    [reflexivity | apply contains_false; reflexivity].
Defined.

(** X10: completing is idempotent: for a known employee and a name that
    occurs in [tasks], a second [complete_task] of the same name answers
    already-completed and leaves the stores as the first call left them,
    whatever the first call answered. *)
Theorem complete_task_twice st employee_id r task :
  dict_get employee_id (employee_tasks st) = Some r →
  task ∈ tasks r →
  let st1 := (complete_task employee_id task st).2 in
  complete_task employee_id task st1 = (Returned (already_completed_msg task), st1).
Proof.
  intros Hr Hin st1. subst st1. rewrite (complete_task_eq employee_id task st), Hr.
  rewrite (proj2 (contains_true _ _) Hin); simpl.
  destruct (Py.contains task (completed r)) eqn:Hc; simpl.
  - by rewrite complete_task_eq, Hr, (proj2 (contains_true _ _) Hin), Hc.
  - rewrite complete_task_eq; simpl. rewrite dict_get_alter, Hr; simpl.
    rewrite (proj2 (contains_true _ _) Hin); simpl.
    assert (Py.contains task (completed r ++ [task]) = true) as ->; [|done].
    apply contains_true, elem_of_app. right. by apply list_elem_of_singleton.
Qed.

Lemma complete_task_twice_witness :
  let st1 := (complete_task "E002" "Update website" initial_state).2 in
  dict_get "E002" (employee_tasks initial_state)
    = Some (mkTasks ["Update website"; "Backup database"] []) ∧
  complete_task "E002" "Update website" st1
    = (Returned "Task 'Update website' is already marked as completed.", st1).
Proof.
  intros st1. split; [reflexivity|].
  apply (complete_task_twice initial_state "E002"
           (mkTasks ["Update website"; "Backup database"] []) "Update website");
    [reflexivity | apply contains_true; reflexivity].
Defined.

(** * What any sequence of calls keeps *)

Section CallSteps.
Implicit Types (st : State) (c : Call) (calls : list Call).

(** Only [assign_task] and [complete_task] write to [employee_tasks]: the
    first appends to [tasks], the second appends to [completed] a name that
    is in [tasks] and not yet in [completed]. *)
Lemma handle_tasks chart c st :
  employee_tasks (handle chart c st).2 = employee_tasks st ∨
  ∃ employee_id task r,
    dict_get employee_id (employee_tasks st) = Some r ∧
    (employee_tasks (handle chart c st).2
       = dict_alter (λ r, mkTasks (tasks r ++ [task]) (completed r))
                    employee_id (employee_tasks st) ∨
     (task ∈ tasks r ∧ (task ∉ completed r) ∧
      employee_tasks (handle chart c st).2
        = dict_alter (λ r, mkTasks (tasks r) (completed r ++ [task]))
                     employee_id (employee_tasks st))).
Proof.
  destruct c as [k|k dates|k| | |k t|k t|k|name]; simpl.
  - left. rewrite get_leave_balance_eq. by destruct (dict_get _ _).
  - left. rewrite apply_leave_eq. destruct (dict_get _ _) as [r|]; simpl; [|done].
    by destruct (balance r <? _).
  - left. rewrite get_leave_history_eq. by destruct (dict_get _ _).
  - by left.
  - by left.
  - rewrite assign_task_eq.
    destruct (dict_get k (employee_tasks st)) as [r|] eqn:Hr; simpl; [|by left].
    right. exists k, t, r. split; [done | by left].
  - rewrite complete_task_eq.
    destruct (dict_get k (employee_tasks st)) as [r|] eqn:Hr; simpl; [|by left].
    destruct (Py.contains t (tasks r)) eqn:Ht; simpl; [|by left].
    destruct (Py.contains t (completed r)) eqn:Hc; simpl; [by left|].
    apply contains_true in Ht. apply contains_false in Hc.
    right. exists k, t, r. split; [done|]. right. done.
  - left. rewrite view_tasks_eq. by destruct (dict_get _ _).
  - by left.
Qed.

Lemma handle_keys chart c st :
  dict_keys (employee_leaves (handle chart c st).2) = dict_keys (employee_leaves st) ∧
  dict_keys (employee_tasks (handle chart c st).2) = dict_keys (employee_tasks st).
Proof.
  split.
  - destruct (handle_leaves chart c st) as [->|(k & dates & r & _ & _ & ->)];
      [done | apply dict_keys_alter].
  - destruct (handle_tasks chart c st) as [->|(k & t & r & _ & [->|(_ & _ & ->)])];
      [done | apply dict_keys_alter ..].
Qed.

(** A leave record after one call: the old history with some dates appended
    and the balance less the number of those dates. *)
Lemma handle_leave_record chart c st employee_id r :
  dict_get employee_id (employee_leaves st) = Some r →
  ∃ new, dict_get employee_id (employee_leaves (handle chart c st).2)
           = Some (mkLeave (balance r - Z.of_nat (length new)) (history r ++ new)).
Proof.
  intros Hr.
  destruct (handle_leaves chart c st) as [->|(k & dates & r0 & Hr0 & Hn & ->)].
  - exists []. rewrite Hr. destruct r as [b h]; simpl.
    by rewrite Z.sub_0_r, app_nil_r.
  - destruct (decide (k = employee_id)) as [->|Hne].
    + exists dates. by rewrite dict_get_alter, Hr.
    + exists []. rewrite dict_get_alter_ne, Hr by done. destruct r as [b h]; simpl.
      by rewrite Z.sub_0_r, app_nil_r.
Qed.

Lemma serve_leave_record chart calls st employee_id r :
  dict_get employee_id (employee_leaves st) = Some r →
  ∃ new, dict_get employee_id (employee_leaves (serve chart calls st))
           = Some (mkLeave (balance r - Z.of_nat (length new)) (history r ++ new)).
Proof.
  revert st r. induction calls as [|c calls IH]; intros st r Hr; simpl.
  - exists []. rewrite Hr. destruct r as [b h]; simpl.
    by rewrite Z.sub_0_r, app_nil_r.
  - destruct (handle_leave_record chart c st employee_id r Hr) as [new1 H1].
    destruct (IH _ _ H1) as [new2 H2]. exists (new1 ++ new2).
    rewrite H2; simpl. rewrite length_app, <- app_assoc. do 2 f_equal. lia.
Qed.

Lemma handle_task_record chart c st employee_id r :
  dict_get employee_id (employee_tasks st) = Some r →
  ∃ r', dict_get employee_id (employee_tasks (handle chart c st).2) = Some r' ∧
        tasks r `prefix_of` tasks r' ∧ completed r `prefix_of` completed r'.
Proof.
  intros Hr.
  destruct (handle_tasks chart c st)
    as [->|(k & t & r0 & Hr0 & [->|(_ & _ & ->)])].
  - by exists r.
  - destruct (decide (k = employee_id)) as [->|Hne].
    + rewrite dict_get_alter, Hr; simpl. eexists; split; [done|]; simpl.
      split; [by apply prefix_app_r | done].
    + rewrite dict_get_alter_ne by done. by exists r.
  - destruct (decide (k = employee_id)) as [->|Hne].
    + rewrite dict_get_alter, Hr; simpl. eexists; split; [done|]; simpl.
      split; [done | by apply prefix_app_r].
    + rewrite dict_get_alter_ne by done. by exists r.
Qed.

Lemma handle_completed_sound chart c st :
  completed_sound st → completed_sound (handle chart c st).2.
Proof.
  intros Hinv. unfold completed_sound.
  destruct (handle_tasks chart c st)
    as [->|(k & t & r & Hr & [->|(Ht & Hc & ->)])]; [exact Hinv| |].
  - apply (Forall_dict_alter (λ v, NoDup (completed v) ∧ completed v ⊆ tasks v));
      [|exact Hinv].
    intros v _ [Hnd Hsub]; simpl. split; [done|].
    intros x Hx. apply elem_of_app. left. by apply Hsub.
  - apply (Forall_dict_alter (λ v, NoDup (completed v) ∧ completed v ⊆ tasks v));
      [|exact Hinv].
    intros v Hv [Hnd Hsub]. assert (v = r) as -> by congruence. simpl. split.
    + apply NoDup_app. split; [done|]. split; [|apply NoDup_singleton].
      intros x Hx Hx'. apply list_elem_of_singleton in Hx' as ->. done.
    + intros x Hx. apply elem_of_app in Hx as [Hx|Hx]; [by apply Hsub|].
      by apply list_elem_of_singleton in Hx as ->.
Qed.

End CallSteps.

Section CallSequences.
Implicit Types (st : State) (calls : list Call).

Lemma serve_keys chart calls st :
  dict_keys (employee_leaves (serve chart calls st)) = dict_keys (employee_leaves st) ∧
  dict_keys (employee_tasks (serve chart calls st)) = dict_keys (employee_tasks st).
Proof.
  revert st. induction calls as [|c calls IH]; intros st; simpl; [done|].
  destruct (IH (handle chart c st).2) as [-> ->]. apply handle_keys.
Qed.

Lemma dict_mem_keys {V} k (d1 d2 : dict V) :
  dict_keys d1 = dict_keys d2 → dict_mem k d1 = dict_mem k d2.
Proof.
  intros Hk. rewrite !dict_mem_get. apply bool_decide_ext.
  by rewrite !dict_get_keys, Hk.
Qed.

Lemma serve_task_record chart calls st employee_id r :
  dict_get employee_id (employee_tasks st) = Some r →
  ∃ r', dict_get employee_id (employee_tasks (serve chart calls st)) = Some r' ∧
        tasks r `prefix_of` tasks r' ∧ completed r `prefix_of` completed r'.
Proof.
  revert st r. induction calls as [|c calls IH]; intros st r Hr; simpl.
  - by exists r.
  - destruct (handle_task_record chart c st employee_id r Hr) as (r1 & H1 & Ht1 & Hc1).
    destruct (IH _ _ H1) as (r2 & H2 & Ht2 & Hc2). exists r2.
    split; [done|]. split; by etrans.
Qed.

Lemma serve_completed_sound chart calls st :
  completed_sound st → completed_sound (serve chart calls st).
Proof.
  revert st. induction calls as [|c calls IH]; intros st Hinv; simpl; [done|].
  apply IH. by apply handle_completed_sound.
Qed.

Lemma initial_completed_sound : completed_sound initial_state.
Proof.
  unfold completed_sound; simpl.
  constructor; [|constructor; [|constructor]]; simpl.
  - split; [apply NoDup_singleton|].
    intros x Hx. apply list_elem_of_singleton in Hx as ->. left.
  - split; [apply NoDup_nil_2|]. intros x Hx. inversion Hx.
Qed.

Lemma summary_line_balance emp_id data :
  summary_line emp_id data = summary_line emp_id (mkLeave (balance data) []).
Proof. reflexivity. Qed.

End CallSequences.

(** X11: the initial stores have, for every employee, a [completed] list
    without duplicates whose names all occur in [tasks], and every sequence
    of tool calls keeps that: a name is never recorded as completed twice,
    and never without having been assigned. *)
Theorem completed_stays_sound chart :
  completed_sound initial_state ∧
  ∀ calls st employee_id r,
    completed_sound st →
    dict_get employee_id (employee_tasks (serve chart calls st)) = Some r →
    NoDup (completed r) ∧ completed r ⊆ tasks r.
Proof.
  split; [apply initial_completed_sound|].
  intros calls st employee_id r Hinv Hr.
  apply (serve_completed_sound chart calls) in Hinv.
  exact (Forall_dict_get (λ v, NoDup (completed v) ∧ completed v ⊆ tasks v)
           employee_id r _ Hinv Hr).
Qed.

Lemma completed_stays_sound_witness :
  let chart := λ (_ : list string) (_ : list Z), "" in
  let calls := [AssignTask "E002" "Call bank"; CompleteTask "E002" "Call bank";
                CompleteTask "E002" "Call bank"; CompleteTask "E002" "Water plants"] in
  let r := mkTasks ["Update website"; "Backup database"; "Call bank"] ["Call bank"] in
  completed_sound initial_state ∧
  dict_get "E002" (employee_tasks (serve chart calls initial_state)) = Some r ∧
  NoDup (completed r) ∧ completed r ⊆ tasks r.
Proof.
  intros chart calls r.
  destruct (completed_stays_sound chart) as [Hinit Hkeep].
  split; [exact Hinit|]. split; [reflexivity|].
  apply (Hkeep calls initial_state "E002" r Hinit). reflexivity.
Defined.

(** X12: over any sequence of tool calls, the leave record of an employee
    only changes by dates being appended to the history, and the balance
    drops by exactly the number of dates appended: nothing is removed from a
    history and no day is ever given back. *)
Theorem leave_record_over_calls chart calls st employee_id r :
  dict_get employee_id (employee_leaves st) = Some r →
  ∃ new,
    dict_get employee_id (employee_leaves (serve chart calls st))
      = Some (mkLeave (balance r - Z.of_nat (length new)) (history r ++ new)).
Proof.
  apply serve_leave_record.
Qed.

Lemma leave_record_over_calls_witness :
  let chart := λ (_ : list string) (_ : list Z), "" in
  let calls := [ApplyLeave "E001" ["2025-03-01"]; ViewTasks "E001";
                ApplyLeave "E001" (replicate 18 "2025-04-01");
                ApplyLeave "E001" ["2025-03-02"; "2025-03-03"]] in
  dict_get "E001" (employee_leaves initial_state)
    = Some (mkLeave 18 ["2024-12-25"; "2025-01-01"]) ∧
  ∃ new,
    dict_get "E001" (employee_leaves (serve chart calls initial_state))
      = Some (mkLeave (18 - Z.of_nat (length new))
                      (["2024-12-25"; "2025-01-01"] ++ new)).
Proof.
  intros chart calls. split; [reflexivity|].
  apply (leave_record_over_calls chart calls initial_state "E001"
           (mkLeave 18 ["2024-12-25"; "2025-01-01"])).
  reflexivity.
Defined.

(** X13: in every state that tool calls reach from the initial stores, the
    balance of each employee plus the number of dates in the history is 20. *)
Theorem balance_plus_history_is_20 chart calls employee_id r :
  dict_get employee_id (employee_leaves (serve chart calls initial_state)) = Some r →
  balance r + Z.of_nat (length (history r)) = 20.
Proof.
  intros Hr.
  assert (is_Some (dict_get employee_id (employee_leaves initial_state))) as [r0 H0].
  { apply dict_get_keys. rewrite <- (proj1 (serve_keys chart calls initial_state)).
    apply dict_get_keys. eauto. }
  destruct (serve_leave_record chart calls initial_state employee_id r0 H0)
    as [new Hnew].
  rewrite Hr in Hnew. injection Hnew as ->; simpl. rewrite length_app.
  simpl in H0. repeat case_decide; simplify_eq; simpl; lia.
Qed.

Lemma balance_plus_history_is_20_witness :
  let chart := λ (_ : list string) (_ : list Z), "" in
  let calls := [ApplyLeave "E002" ["2025-03-01"; "2025-03-02"; "2025-03-03"];
                ApplyLeave "E002" (replicate 18 "2025-04-01")] in
  let r := mkLeave 17 ["2025-03-01"; "2025-03-02"; "2025-03-03"] in
  dict_get "E002" (employee_leaves (serve chart calls initial_state)) = Some r ∧
  balance r + Z.of_nat (length (history r)) = 20.
Proof.
  intros chart calls r.
  assert (dict_get "E002" (employee_leaves (serve chart calls initial_state)) = Some r)
    as Hr by reflexivity.
  split; [exact Hr|].
  exact (balance_plus_history_is_20 chart calls "E002" r Hr).
Defined.

(** X14: over any sequence of tool calls, the [tasks] and [completed] lists
    of an employee only grow at the end: what they held before is a prefix of
    what they hold after, so no task is ever unassigned, reordered or
    un-completed. *)
Theorem task_lists_append_only chart calls st employee_id r :
  dict_get employee_id (employee_tasks st) = Some r →
  ∃ r', dict_get employee_id (employee_tasks (serve chart calls st)) = Some r' ∧
        tasks r `prefix_of` tasks r' ∧ completed r `prefix_of` completed r'.
Proof.
  apply serve_task_record.
Qed.

Lemma task_lists_append_only_witness :
  let chart := λ (_ : list string) (_ : list Z), "" in
  let calls := [CompleteTask "E001" "Attend meeting"; AssignTask "E001" "Call bank"] in
  let r := mkTasks ["Prepare report"; "Attend meeting"] ["Prepare report"] in
  dict_get "E001" (employee_tasks initial_state) = Some r ∧
  ∃ r', dict_get "E001" (employee_tasks (serve chart calls initial_state)) = Some r' ∧
        tasks r `prefix_of` tasks r' ∧ completed r `prefix_of` completed r'.
Proof.
  intros chart calls r. split; [reflexivity|].
  apply (task_lists_append_only chart calls initial_state "E001" r). reflexivity.
Defined.

(** X15: no sequence of tool calls adds, removes or reorders the keys of
    either store; an id is a key after the calls exactly when it was one
    before, so an unknown employee can never become known. *)
Theorem employees_fixed chart calls st :
  dict_keys (employee_leaves (serve chart calls st)) = dict_keys (employee_leaves st) ∧
  dict_keys (employee_tasks (serve chart calls st)) = dict_keys (employee_tasks st) ∧
  (∀ employee_id,
     dict_mem employee_id (employee_leaves (serve chart calls st))
       = dict_mem employee_id (employee_leaves st) ∧
     dict_mem employee_id (employee_tasks (serve chart calls st))
       = dict_mem employee_id (employee_tasks st)).
Proof.
  destruct (serve_keys chart calls st) as [Hl Ht].
  split; [done|]. split; [done|].
  intros employee_id. split; by apply dict_mem_keys.
Qed.

(** X16: the tools without an assignment to a store ([get_leave_balance],
    [get_leave_history], [visualize_leave_summary], [plot_leave_balances],
    [view_tasks]) and the greeting leave both stores exactly as they were, for
    every argument and in every state. *)
Theorem read_only_calls_keep_state chart c st :
  read_only c = true → (handle chart c st).2 = st.
Proof.
  destruct c as [k|k dates|k| | |k t|k t|k|name]; simpl; intros Hro;
    try discriminate Hro.
  - rewrite get_leave_balance_eq. by destruct (dict_get _ _).
  - rewrite get_leave_history_eq. by destruct (dict_get _ _).
  - done.
  - done.
  - rewrite view_tasks_eq. by destruct (dict_get _ _).
  - done.
Qed.

Lemma read_only_calls_keep_state_witness :
  let chart := λ (_ : list string) (_ : list Z), "" in
  read_only (ViewTasks "E001") = true ∧
  (handle chart (ViewTasks "E001") initial_state).2 = initial_state.
Proof.
  intros chart. split; [reflexivity|].
  apply (read_only_calls_keep_state chart (ViewTasks "E001") initial_state).
  reflexivity.
Defined.

(** X17: the tools that subscript a store with the employee id
    ([apply_leave], [assign_task], [complete_task], [view_tasks]) never raise
    [KeyError], in any state and for any argument: each subscript
    [employee_leaves[employee_id]] or [employee_tasks[employee_id]] is only
    reached behind a membership test, and no mutation in between removes the
    key. *)
Theorem subscripts_never_raise_key_error chart st employee_id key :
  (∀ leave_dates,
     (handle chart (ApplyLeave employee_id leave_dates) st).1 ≠ Raised (KeyError key)) ∧
  (∀ task,
     (handle chart (AssignTask employee_id task) st).1 ≠ Raised (KeyError key)) ∧
  (∀ task,
     (handle chart (CompleteTask employee_id task) st).1 ≠ Raised (KeyError key)) ∧
  (handle chart (ViewTasks employee_id) st).1 ≠ Raised (KeyError key).
Proof.
  repeat split; intros; intros Hraise;
    match type of Hraise with
    | (handle chart ?c st).1 = _ =>
        destruct (handle_returns chart c st) as [msg Hmsg]
    end; congruence.
Qed.

Lemma subscripts_never_raise_key_error_witness :
  let chart := λ (_ : list string) (_ : list Z), "" in
  (handle chart (ViewTasks "E404") initial_state).1 ≠ Raised (KeyError "E404") ∧
  (handle chart (ApplyLeave "E001" ["2025-03-01"]) initial_state).1
    ≠ Raised (KeyError "E001").
Proof.
  intros chart. split.
  - apply (subscripts_never_raise_key_error chart initial_state "E404" "E404").
  - apply (subscripts_never_raise_key_error chart initial_state "E001" "E001").
Defined.

(** X18: the greeting determines the name: two names with the same greeting
    are the same name. *)
Theorem get_greeting_inj name1 name2 :
  get_greeting name1 = get_greeting name2 → name1 = name2.
Proof.
  unfold get_greeting. intros H.
  apply (inj (String.app "Hello, ")) in H. by apply str_app_inv_tail in H.
Qed.

Lemma get_greeting_inj_witness :
  get_greeting "Ada" = get_greeting "Ada" ∧ "Ada" = "Ada".
Proof.
  split; [reflexivity|]. apply (get_greeting_inj "Ada" "Ada"). reflexivity.
Defined.

(** X19: the text summary and the chart read nothing but the ids and the
    balances of [employee_leaves], in store order: two states with the same
    ids and balances get the same answer from [visualize_leave_summary] and
    from [plot_leave_balances], whatever the histories and the task store
    hold. *)
Theorem summaries_read_ids_and_balances chart st1 st2 :
  leave_snapshot st1 = leave_snapshot st2 →
  (visualize_leave_summary st1).1 = (visualize_leave_summary st2).1 ∧
  (plot_leave_balances chart st1).1 = (plot_leave_balances chart st2).1.
Proof.
  unfold leave_snapshot. intros Hs. split.
  - assert (map (λ kv : string * LeaveRecord, summary_line kv.1 kv.2)
                (employee_leaves st1)
            = map (λ kv : string * LeaveRecord, summary_line kv.1 kv.2)
                  (employee_leaves st2)) as Hlines.
    { transitivity (map (λ p : string * Z, summary_line p.1 (mkLeave p.2 []))
                        (map (λ kv, (kv.1, balance kv.2)) (employee_leaves st1))).
      - rewrite map_map. apply map_ext. intros [k v]. apply summary_line_balance.
      - rewrite Hs, map_map. apply map_ext. intros [k v]. symmetry.
        apply summary_line_balance. }
    rewrite !visualize_leave_summary_closed. cbn [fst]. by rewrite Hlines.
  - assert (dict_keys (employee_leaves st1) = dict_keys (employee_leaves st2))
      as Hkeys.
    { unfold dict_keys. apply (f_equal (fmap fst)) in Hs.
      rewrite !map_map in Hs. exact Hs. }
    assert (balance <$> dict_values (employee_leaves st1)
            = balance <$> dict_values (employee_leaves st2)) as Hbal.
    { unfold dict_values. apply (f_equal (fmap snd)) in Hs.
      rewrite !map_map in Hs. rewrite <- !list_fmap_compose. exact Hs. }
    unfold plot_leave_balances, bind, leaves_items, ret. cbn [fst].
    by rewrite Hkeys, Hbal.
Qed.

Lemma summaries_read_ids_and_balances_witness :
  let chart := λ (_ : list string) (_ : list Z), "" in
  let st2 := (complete_task "E002" "Update website"
                (apply_leave "E001" [] initial_state).2).2 in
  leave_snapshot initial_state = leave_snapshot st2 ∧
  (visualize_leave_summary initial_state).1 = (visualize_leave_summary st2).1 ∧
  (plot_leave_balances chart initial_state).1 = (plot_leave_balances chart st2).1.
Proof.
  intros chart st2. split; [reflexivity|].
  apply (summaries_read_ids_and_balances chart initial_state st2). reflexivity.
Defined.

(** X20: for a known employee [assign_task] never refuses: whatever the
    name (empty, already assigned, already completed), it answers with the
    assignment message and appends the name at the end of [tasks], keeping
    the earlier entries and the [completed] list. *)
Theorem assign_task_appends st employee_id r task :
  dict_get employee_id (employee_tasks st) = Some r →
  (assign_task employee_id task st).1
    = Returned ("Task '" +:+ task +:+ "' assigned to " +:+ employee_id +:+ ".") ∧
  dict_get employee_id (employee_tasks (assign_task employee_id task st).2)
    = Some (mkTasks (tasks r ++ [task]) (completed r)).
Proof.
  intros Hr. rewrite assign_task_eq, Hr; simpl.
  split; [done|]. by rewrite dict_get_alter, Hr.
Qed.

Lemma assign_task_appends_witness :
  dict_get "E001" (employee_tasks initial_state)
    = Some (mkTasks ["Prepare report"; "Attend meeting"] ["Prepare report"]) ∧
  (assign_task "E001" "Attend meeting" initial_state).1
    = Returned "Task 'Attend meeting' assigned to E001." ∧
  dict_get "E001" (employee_tasks (assign_task "E001" "Attend meeting" initial_state).2)
    = Some (mkTasks ["Prepare report"; "Attend meeting"; "Attend meeting"]
                    ["Prepare report"]).
Proof.
  split; [reflexivity|].
  apply (assign_task_appends initial_state "E001"
           (mkTasks ["Prepare report"; "Attend meeting"] ["Prepare report"])
           "Attend meeting").
  reflexivity.
Defined.


